(** * Collocation search: query construction and result shaping

    A shallow embedding of [search_dependencies] from
    [API/myapp/myapp/main.py]: the construction of the parametrised SQL text
    and of its positional argument list, the handling of the rows the store
    returns, and the mapping of failures to HTTP errors. *)

From Stdlib Require Import ZArith Ascii String DecimalString.
From stdpp Require Import strings list gmap.

(** ** Python values and helpers *)

(** What travels as a bound parameter or sits in a row: a [str], a list of
    [str], an [int], or [None]. *)
Inductive value :=
  | VStr (s : string)
  | VList (l : list string)
  | VInt (z : Z)
  | VNone.

#[global] Instance value_eq_dec : EqDecision value.
Proof. solve_decision. Defined.

(** The newline of the triple-quoted templates, and the asterisk of
    [COUNT] (kept apart from the parentheses around it). *)
Definition nl : string := String "010"%char EmptyString.
Definition star : string := String "042"%char EmptyString.

(** [str(n)] on a non-negative [int]. *)
Definition str (n : nat) : string := NilEmpty.string_of_uint (Nat.to_uint n).

(** Truth value of an optional [str]: [None] and the empty string are false. *)
Definition truthy_str (o : option string) : bool :=
  match o with
  | Some (String _ _) => true
  | _ => false
  end.

(** Truth value of an optional list: [None] and the empty list are false. *)
Definition truthy_list (o : option (list string)) : bool :=
  match o with
  | Some (_ :: _) => true
  | _ => false
  end.

(** [x is not None]. *)
Definition is_not_None {A} (o : option A) : bool :=
  match o with
  | Some _ => true
  | None => false
  end.

(** How an f-string renders an optional [str] and an optional position. *)
Definition fmt_str (o : option string) : string :=
  match o with
  | Some s => s
  | None => "None"
  end.

Definition fmt_pos (o : option nat) : string :=
  match o with
  | Some n => str n
  | None => "None"
  end.

(** An optional list or [int] passed as it is to [params.append]. *)
Definition list_value (o : option (list string)) : value :=
  match o with
  | Some l => VList l
  | None => VNone
  end.

Definition int_value (o : option Z) : value :=
  match o with
  | Some z => VInt z
  | None => VNone
  end.

(** ** The request: the keyword arguments of [search_dependencies] *)

Record request := Request {
  head_text : option string;
  head_pos : option (list string);
  dpdt_text : option string;
  dpdt_pos : option (list string);
  dep_type : option (list string);
  freq_inf : Z;
  freq_sup : option Z;
  results_limit : Z;
  results_offset : Z;
  examples_limit : Z;
  examples_offset : Z;
  book_names : option (list string);
  book_categories : option (list string);
  book_periods : option (list string);
  book_styles : option (list string)
}.

(** ** Lines 89-117: WHERE predicates, appended together with their argument *)

Record builder := Builder {
  b_where_clauses : list string;
  b_params : list value;
  b_param_counter : nat
}.

Definition builder_init : builder := Builder [] [] 1.

(** [if text: where_clauses.append(f"<column> LIKE $<counter>");
     params.append(f"%<text>%"); param_counter += 1] *)
Definition where_like (column : string) (text : option string) (st : builder) : builder :=
  if truthy_str text then
    Builder (b_where_clauses st ++ [column +:+ " LIKE $" +:+ str (b_param_counter st)])
            (b_params st ++ [VStr ("%" +:+ fmt_str text +:+ "%")])
            (b_param_counter st + 1)
  else st.

(** [if tags: where_clauses.append(f"<column> = ANY($<counter>::text[])");
     params.append(tags); param_counter += 1] *)
Definition where_any (column : string) (tags : option (list string)) (st : builder) : builder :=
  if truthy_list tags then
    Builder (b_where_clauses st ++ [column +:+ " = ANY($" +:+ str (b_param_counter st) +:+ "::text[])"])
            (b_params st ++ [list_value tags])
            (b_param_counter st + 1)
  else st.

Definition where_builder (r : request) : builder :=
  let st := builder_init in
  let st := where_like "head_text" (head_text r) st in
  let st := where_like "dependent_text" (dpdt_text r) st in
  let st := where_any "head_pos" (head_pos r) st in
  let st := where_any "dependent_pos" (dpdt_pos r) st in
  let st := where_any "dependency_type" (dep_type r) st in
  st.

Definition where_clauses (r : request) : list string := b_where_clauses (where_builder r).

(** [" AND ".join(where_clauses)] *)
Definition final_where_sql (r : request) : string := String.concat " AND " (where_clauses r).

(** ** Lines 131-172: positions handed out from the running counter *)

(** A computation over [param_counter]. *)
Definition counting (A : Type) : Type := nat -> A * nat.

#[global] Instance counting_ret : MRet counting := fun A (a : A) n => (a, n).

#[global] Instance counting_bind : MBind counting :=
  fun A B (k : A -> counting B) (m : counting A) n => let '(a, n') := m n in k a n'.

(** [pos = param_counter; param_counter += 1] *)
Definition take_pos : counting nat := fun n => (n, n + 1).

(** [pos = None; if supplied: pos = param_counter; param_counter += 1] *)
Definition take_pos_if (supplied : bool) : counting (option nat) :=
  fun n => if supplied then (Some n, n + 1) else (None, n).

Record positions := Positions {
  freq_inf_pos : nat;
  freq_sup_pos : option nat;
  book_names_pos : option nat;
  categories_pos : option nat;
  periods_pos : option nat;
  styles_pos : option nat;
  examples_limit_pos : nat;
  examples_offset_pos : nat;
  results_limit_pos : nat;
  results_offset_pos : nat
}.

Definition assign_positions (r : request) : counting positions :=
  fi ← take_pos;
  fs ← take_pos_if (is_not_None (freq_sup r));
  bn ← take_pos_if (truthy_list (book_names r));
  bc ← take_pos_if (truthy_list (book_categories r));
  bp ← take_pos_if (truthy_list (book_periods r));
  bs ← take_pos_if (truthy_list (book_styles r));
  el ← take_pos;
  eo ← take_pos;
  rl ← take_pos;
  ro ← take_pos;
  mret (Positions fi fs bn bc bp bs el eo rl ro).

Definition pos (r : request) : positions :=
  fst (assign_positions r (b_param_counter (where_builder r))).

(** [param_counter] once every position is assigned. *)
Definition param_counter (r : request) : nat :=
  snd (assign_positions r (b_param_counter (where_builder r))).

(** ** Lines 174-194: the book filter, built once *)

Definition condition_if (supplied : bool) (column : string) (p : option nat) : list string :=
  if supplied then [column +:+ " = ANY($" +:+ fmt_pos p +:+ "::text[])"] else [].

Definition book_filter_conditions (r : request) : list string :=
  condition_if (truthy_list (book_names r)) "name" (book_names_pos (pos r))
  ++ condition_if (truthy_list (book_categories r)) "category" (categories_pos (pos r))
  ++ condition_if (truthy_list (book_periods r)) "period" (periods_pos (pos r))
  ++ condition_if (truthy_list (book_styles r)) "style" (styles_pos (pos r)).

Definition books_filter_inner_sql (r : request) : string :=
  match book_filter_conditions r with
  | [] => ""
  | conds =>
      nl +:+
      "                INNER JOIN (" +:+ nl +:+
      "                    SELECT name FROM books" +:+ nl +:+
      "                    WHERE " +:+ String.concat " AND " conds +:+ nl +:+
      "                ) AS boo ON boo.name = e->>'book'" +:+ nl +:+
      "                "
  end.

(** ** Lines 196-231: the two example subqueries and the main query *)

Definition example_fetch_sql (r : request) : string :=
  nl +:+
  "                (SELECT jsonb_agg(e) FROM (" +:+ nl +:+
  "                    SELECT e FROM jsonb_array_elements(examples) AS e" +:+ nl +:+
  "                    " +:+ books_filter_inner_sql r +:+ " -- Use the reusable filter" +:+ nl +:+
  "                    LIMIT $" +:+ str (examples_limit_pos (pos r))
    +:+ " OFFSET $" +:+ str (examples_offset_pos (pos r)) +:+ nl +:+
  "                ) AS limited_examples)" +:+ nl +:+
  "            ".

Definition total_matching_examples_count_sql (r : request) : string :=
  nl +:+
  "                (SELECT COUNT(" +:+ star +:+ ")" +:+ nl +:+
  "                FROM jsonb_array_elements(examples) AS e" +:+ nl +:+
  "                " +:+ books_filter_inner_sql r +:+ " -- Use the reusable filter" +:+ nl +:+
  "                )" +:+ nl +:+
  "            ".

(** The text between [WHERE] and [ORDER BY]. *)
Definition where_section (r : request) : string :=
  "                    " +:+ final_where_sql r +:+ nl +:+
  "                    AND mv_token_collocations.frequency >= $" +:+ str (freq_inf_pos (pos r)) +:+ nl +:+
  "                    " +:+
    (if is_not_None (freq_sup r)
     then "AND mv_token_collocations.frequency <= $" +:+ fmt_pos (freq_sup_pos (pos r))
     else "") +:+ nl.

(** The text from [ORDER BY] to the end. *)
Definition order_section : string :=
  "                ORDER BY" +:+ nl +:+
  "                    example_count DESC" +:+ nl.

Definition limit_section (r : request) : string :=
  "                LIMIT $" +:+ str (results_limit_pos (pos r))
    +:+ " OFFSET $" +:+ str (results_offset_pos (pos r)) +:+ ";" +:+ nl +:+
  "            ".

(** The text before the first interpolation of the main template. *)
Definition select_head : string :=
  nl +:+
  "                SELECT" +:+ nl +:+
  "                    dependent_text, dependent_pos, head_text, head_pos," +:+ nl +:+
  "                    dependency_type," +:+ nl +:+
  "                    ".

(** The text after [{example_fetch_sql}]. *)
Definition after_example_fetch (r : request) : string :=
  " AS examples," +:+ nl +:+
  "                    mv_token_collocations.frequency, -- KEEP original frequency column" +:+ nl +:+
  "                    " +:+ total_matching_examples_count_sql r
    +:+ " AS example_count, -- NEW column for total examples" +:+ nl +:+
  "                    COUNT(" +:+ star +:+ ") OVER() AS total_collocations_count -- Renamed for clarity" +:+ nl +:+
  "                FROM" +:+ nl +:+
  "                    mv_token_collocations" +:+ nl +:+
  "                WHERE" +:+ nl +:+
  where_section r +:+
  order_section +:+
  limit_section r.

Definition query_template (r : request) : string :=
  select_head +:+ example_fetch_sql r +:+ after_example_fetch r.

(** ** Lines 233-252: the argument list *)

Definition append_if (supplied : bool) (v : value) (ps : list value) : list value :=
  if supplied then ps ++ [v] else ps.

Definition params (r : request) : list value :=
  let ps := b_params (where_builder r) in
  let ps := ps ++ [VInt (freq_inf r)] in
  let ps := append_if (is_not_None (freq_sup r)) (int_value (freq_sup r)) ps in
  let ps := append_if (truthy_list (book_names r)) (list_value (book_names r)) ps in
  let ps := append_if (truthy_list (book_categories r)) (list_value (book_categories r)) ps in
  let ps := append_if (truthy_list (book_periods r)) (list_value (book_periods r)) ps in
  let ps := append_if (truthy_list (book_styles r)) (list_value (book_styles r)) ps in
  let ps := ps ++ [VInt (examples_limit r)] in
  let ps := ps ++ [VInt (examples_offset r)] in
  let ps := ps ++ [VInt (results_limit r)] in
  let ps := ps ++ [VInt (results_offset r)] in
  ps.

(** The pair handed to [connection.fetch]. *)
Definition build_query (r : request) : string * list value := (query_template r, params r).

(** ** Lines 258-270: the rows and the response *)

(** A row is used as [dict(row)] has it, column name to value:
    [gmap string value]. *)

Record response := Response {
  total_collocations_count : value;
  results : list (gmap string value)
}.

(** What the handlers at lines 272-277 catch: a [PostgresError] with its
    [detail], its [message] and its [str], or any other [Exception] with
    its [str]. A [BaseException] that is no [Exception], such as
    [asyncio.CancelledError], passes both handlers; see [raised] and
    [async_search_dependencies] below. *)
Inductive exn :=
  | PostgresError (detail message : option string) (text : string)
  | OtherException (text : string).

(** [collocations[0]["total_collocations_count"]] on a row without the key. *)
Definition KeyError (key : string) : exn := OtherException ("'" +:+ key +:+ "'").

(** [collocations[0]["total_collocations_count"] if collocations else 0] *)
Definition first_total (collocations : list (gmap string value)) : exn + value :=
  match collocations with
  | [] => inr (VInt 0)
  | first :: _ =>
      match first !! "total_collocations_count" with
      | Some v => inr v
      | None => inl (KeyError "total_collocations_count")
      end
  end.

(** [row.pop("total_collocations_count", None)] *)
Definition pop_total (r : gmap string value) : gmap string value := delete "total_collocations_count" r.

Definition shape_result (collocations : list (gmap string value)) : exn + response :=
  match first_total collocations with
  | inl e => inl e
  | inr total => inr (Response total (pop_total <$> collocations))
  end.

(** ** Lines 80-88 and 254-277: the store, the log and the HTTP outcome *)

Inductive level := INFO | ERROR.

(** What the operation does to the outside, in order. *)
Inductive event :=
  | Acquire
  | Fetch (query : string) (args : list value)
  | Release
  | Log (lv : level) (msg : string).

(** The collaborators: whether [db_pool.acquire()] raises, what
    [connection.fetch] answers, and how a logged argument list prints. *)
Record store := Store {
  acquire_failure : option exn;
  fetch : string -> list value -> exn + list (gmap string value);
  repr : list value -> string
}.

(** A computation that leaves a trace and returns or raises. *)
Definition io (A : Type) : Type := list event * (exn + A).

#[global] Instance io_ret : MRet io := fun A (a : A) => ([], inr a).

#[global] Instance io_bind : MBind io :=
  fun A B (k : A -> io B) (m : io A) =>
    match m with
    | (tr, inl e) => (tr, inl e)
    | (tr, inr a) => let '(tr', b) := k a in (tr ++ tr', b)
    end.

Definition emit (ev : event) : io unit := ([ev], inr tt).

(** [async with app.state.db_pool.acquire() as connection: body]; the
    connection goes back to the pool however the body ends. *)
Definition with_connection {A} (st : store) (body : io A) : io A :=
  match acquire_failure st with
  | Some e => ([Acquire], inl e)
  | None => let '(tr, res) := body in (Acquire :: tr ++ [Release], res)
  end.

(** The body of the [async with]; [logger.debug] is below the configured
    level and leaves nothing. *)
Definition run_query (st : store) (r : request) : io response :=
  let '(query, args) := build_query r in
  _ ← emit (Log INFO ("Executing query with params: " +:+ repr st args));
  result ← ([Fetch query args], fetch st query args);
  ([], shape_result result).

Record http_exception := HTTPException {
  status_code : Z;
  http_detail : string
}.

(** [e.detail or e.message] *)
Definition py_or (a b : option string) : option string :=
  if truthy_str a then a else b.

Definition search_dependencies (st : store) (r : request)
  : list event * (http_exception + response) :=
  if negb (truthy_str (head_text r)) && negb (truthy_str (dpdt_text r)) then
    ([], inl (HTTPException 400
                "At least one of 'head_text' or 'dpdt_text' must be provided."))
  else
    match with_connection st (run_query st r) with
    | (tr, inr resp) => (tr, inr resp)
    | (tr, inl (PostgresError detail message text)) =>
        (tr ++ [Log ERROR ("Database error: " +:+ text)],
         inl (HTTPException 500 ("Database error: " +:+ fmt_str (py_or detail message))))
    | (tr, inl (OtherException text)) =>
        (tr ++ [Log ERROR ("An unexpected error occurred: " +:+ text)],
         inl (HTTPException 500 "Internal Server Error"))
    end.
(** ** Reading a query text back *)

Definition is_digit (c : ascii) : bool :=
  match c with
  | "0" | "1" | "2" | "3" | "4" | "5" | "6" | "7" | "8" | "9" => true
  | _ => false
  end%char.

Definition digit_value (c : ascii) : nat :=
  match c with
  | "1" => 1 | "2" => 2 | "3" => 3 | "4" => 4 | "5" => 5
  | "6" => 6 | "7" => 7 | "8" => 8 | "9" => 9
  | _ => 0
  end%char.

Definition is_dollar (c : ascii) : bool := Ascii.eqb c "$".

(** Where the scanner stands: outside a placeholder, just after a dollar
    sign, or inside the digits of a placeholder read so far. *)
Inductive scan_state :=
  | Outside
  | Dollar
  | Digits (n : nat).

Definition flush (st : scan_state) : list nat :=
  match st with
  | Digits n => [n]
  | _ => []
  end.

(** The placeholders [$n] of a text, in the order they occur; the digits
    after a dollar sign are read to their end, so [$12] is twelve. *)
Fixpoint scan (st : scan_state) (s : string) : list nat :=
  match s with
  | EmptyString => flush st
  | String c s' =>
      if is_digit c then
        match st with
        | Outside => scan Outside s'
        | Dollar => scan (Digits (digit_value c)) s'
        | Digits n => scan (Digits (10 * n + digit_value c)) s'
        end
      else flush st ++ scan (if is_dollar c then Dollar else Outside) s'
  end.

Definition placeholders (s : string) : list nat := scan Outside s.

(** How many times [i] occurs in [l]. *)
Fixpoint occ (i : nat) (l : list nat) : nat :=
  match l with
  | [] => 0
  | x :: l' => (if Nat.eqb x i then 1 else 0) + occ i l'
  end.

(** Whether [s] begins with [pat]. *)
Fixpoint starts_with (pat s : string) : bool :=
  match pat, s with
  | EmptyString, _ => true
  | String a pat', String b s' => if Ascii.eqb a b then starts_with pat' s' else false
  | String _ _, EmptyString => false
  end.

(** How many times each of 1..[n] occurs in [l]. *)
Definition occs (l : list nat) (n : nat) : list nat :=
  map (fun i => occ i l) (seq 1 n).

Definition in_range (n i : nat) : bool := (1 <=? i) && (i <=? n).

(** How many times [pat] occurs in [s] as a substring. *)
Fixpoint occurrences (pat s : string) : nat :=
  (if starts_with pat s then 1 else 0) +
  match s with
  | EmptyString => 0
  | String _ s' => occurrences pat s'
  end.

(** ** Requests the transport layer lets through and the validator accepts *)

Definition has_text_filter (r : request) : bool :=
  truthy_str (head_text r) || truthy_str (dpdt_text r).

Definition valid_request (r : request) : Prop :=
  has_text_filter r = true /\
  (0 < results_limit r)%Z /\ (0 <= results_offset r)%Z /\
  (0 < examples_limit r)%Z /\ (0 <= examples_offset r)%Z.

(** The positions given to the book filters that are supplied. *)
Definition book_positions (r : request) : list nat :=
  omap id [book_names_pos (pos r); categories_pos (pos r);
           periods_pos (pos r); styles_pos (pos r)].

(** *** Words of a query text *)

Definition is_space (c : ascii) : bool :=
  Ascii.eqb c " " || Ascii.eqb c "010".

Definition word_list (w : string) : list string :=
  match w with
  | EmptyString => []
  | _ => [w]
  end.

(** The maximal runs of characters other than blanks and newlines. *)
Fixpoint sql_words_from (w s : string) : list string :=
  match s with
  | EmptyString => word_list w
  | String c s' =>
      if is_space c then word_list w ++ sql_words_from EmptyString s'
      else sql_words_from (w +:+ String c EmptyString) s'
  end.

Definition sql_words (s : string) : list string := sql_words_from EmptyString s.

(** The word that follows each occurrence of [kw] (the empty string at
    the end of the text). *)
Fixpoint words_after (kw : string) (ws : list string) : list string :=
  match ws with
  | [] => []
  | w :: ws' =>
      (if String.eqb w kw then [hd EmptyString ws'] else []) ++ words_after kw ws'
  end.



(** Whether a word can follow [WHERE]: neither [AND] nor nothing. *)
Definition starts_predicate (w : string) : bool :=
  negb (String.eqb w "AND") && negb (String.eqb w EmptyString).

(** Whether every [WHERE] of [q] is followed by a predicate, and the word
    that follows the last [WHERE]. *)
Definition where_heads (q : string) : bool * option string :=
  let h := words_after "WHERE" (sql_words q) in
  (forallb starts_predicate h, last h).

(** *** The order the claims speak of *)

Definition option_list {A} (o : option A) : list A :=
  match o with
  | Some a => [a]
  | None => []
  end.

(** The placeholders of the WHERE predicates, predicate by predicate. *)
Definition where_positions (r : request) : list nat :=
  flat_map placeholders (where_clauses r).

(** The position variables in the order: minimum frequency, maximum
    frequency, book names, categories, periods, styles, examples limit and
    offset, results limit and offset. *)
Definition assigned_positions (r : request) : list nat :=
  [freq_inf_pos (pos r)] ++ option_list (freq_sup_pos (pos r))
  ++ book_positions r
  ++ [examples_limit_pos (pos r); examples_offset_pos (pos r);
      results_limit_pos (pos r); results_offset_pos (pos r)].

(** Each position variable with the value its place in the query text
    stands for. *)
Definition denotations (r : request) : list (option nat * value) :=
  [(Some (freq_inf_pos (pos r)), VInt (freq_inf r));
   (freq_sup_pos (pos r), int_value (freq_sup r));
   (book_names_pos (pos r), list_value (book_names r));
   (categories_pos (pos r), list_value (book_categories r));
   (periods_pos (pos r), list_value (book_periods r));
   (styles_pos (pos r), list_value (book_styles r));
   (Some (examples_limit_pos (pos r)), VInt (examples_limit r));
   (Some (examples_offset_pos (pos r)), VInt (examples_offset r));
   (Some (results_limit_pos (pos r)), VInt (results_limit r));
   (Some (results_offset_pos (pos r)), VInt (results_offset r))].

(** The predicates the specification asks for: a substring match for a
    supplied text, a set membership for a supplied set, each with the
    value to bind, in the order head text, dependent text, head tags,
    dependent tags, dependency types. *)
Definition like_predicate (column : string) (o : option string)
  : list ((nat -> string) * value) :=
  match o with
  | Some ((String _ _) as v) =>
      [(fun i => column +:+ " LIKE $" +:+ str i, VStr ("%" +:+ v +:+ "%"))]
  | _ => []
  end.

Definition member_predicate (column : string) (o : option (list string))
  : list ((nat -> string) * value) :=
  match o with
  | Some ((_ :: _) as l) =>
      [(fun i => column +:+ " = ANY($" +:+ str i +:+ "::text[])", VList l)]
  | _ => []
  end.

Definition spec_predicates (r : request) : list ((nat -> string) * value) :=
  like_predicate "head_text" (head_text r)
  ++ like_predicate "dependent_text" (dpdt_text r)
  ++ member_predicate "head_pos" (head_pos r)
  ++ member_predicate "dependent_pos" (dpdt_pos r)
  ++ member_predicate "dependency_type" (dep_type r).

(** The texts of the predicates, numbered from [i] on. *)
Fixpoint numbered (i : nat) (l : list ((nat -> string) * value)) : list string :=
  match l with
  | [] => []
  | (f, _) :: l' => f i :: numbered (S i) l'
  end.

(** The values the specification binds after the predicates. *)
Definition spec_tail_values (r : request) : list value :=
  [VInt (freq_inf r)]
  ++ (if is_not_None (freq_sup r) then [int_value (freq_sup r)] else [])
  ++ (if truthy_list (book_names r) then [list_value (book_names r)] else [])
  ++ (if truthy_list (book_categories r) then [list_value (book_categories r)] else [])
  ++ (if truthy_list (book_periods r) then [list_value (book_periods r)] else [])
  ++ (if truthy_list (book_styles r) then [list_value (book_styles r)] else [])
  ++ [VInt (examples_limit r); VInt (examples_offset r);
      VInt (results_limit r); VInt (results_offset r)].

(** The same request with another window over the examples. *)
Definition with_examples_window (limit offset : Z) (r : request) : request :=
  Request (head_text r) (head_pos r) (dpdt_text r) (dpdt_pos r) (dep_type r)
          (freq_inf r) (freq_sup r) (results_limit r) (results_offset r)
          limit offset
          (book_names r) (book_categories r) (book_periods r) (book_styles r).

(** The placeholders of the whole query in the order of the text. *)
Definition text_order (r : request) : list nat :=
  book_positions r
  ++ [examples_limit_pos (pos r); examples_offset_pos (pos r)]
  ++ book_positions r
  ++ where_positions r
  ++ [freq_inf_pos (pos r)] ++ option_list (freq_sup_pos (pos r))
  ++ [results_limit_pos (pos r); results_offset_pos (pos r)].

(** *** Sample data *)

Definition sample : request :=
  Request (Some "run") None None None None 5 None 2 0 5 0 None None None None.

Definition sample_books : request :=
  Request (Some "run") None None None None 5 None 2 0 5 0
          (Some ["Shiji"]) None None None.

Definition sample_full : request :=
  Request (Some "run") (Some ["VERB"]) (Some "fast") (Some ["ADV"; "ADJ"])
          (Some ["advmod"]) 5 (Some 90%Z) 2 0 5 0
          (Some ["Shiji"]) (Some ["history"]) (Some ["Han"]) (Some ["prose"]).

Definition no_text : request :=
  Request None (Some ["VERB"]) (Some "") None None 1 None 8 0 5 0 None None None None.

Definition no_filters : request :=
  Request None None None None None 1 None 8 0 5 0 None None None None.

(** One for a true test, zero for a false one. *)
Definition bit (b : bool) : nat := if b then 1 else 0.

(** ** Proof tools: the ten tests the builder makes *)

(** The outcome of every [if] of the builder. *)
Record tests := Tests {
  t_head_text : bool;
  t_dpdt_text : bool;
  t_head_pos : bool;
  t_dpdt_pos : bool;
  t_dep_type : bool;
  t_freq_sup : bool;
  t_book_names : bool;
  t_book_categories : bool;
  t_book_periods : bool;
  t_book_styles : bool
}.

Definition tests_of (r : request) : tests :=
  Tests (truthy_str (head_text r)) (truthy_str (dpdt_text r))
        (truthy_list (head_pos r)) (truthy_list (dpdt_pos r)) (truthy_list (dep_type r))
        (is_not_None (freq_sup r))
        (truthy_list (book_names r)) (truthy_list (book_categories r))
        (truthy_list (book_periods r)) (truthy_list (book_styles r)).

Definition some_if {A} (b : bool) (a : A) : option A := if b then Some a else None.

(** A request on which the tests come out as [t]. *)
Definition specimen (t : tests) : request :=
  Request (some_if (t_head_text t) "a") (some_if (t_head_pos t) ["b"])
          (some_if (t_dpdt_text t) "c") (some_if (t_dpdt_pos t) ["d"])
          (some_if (t_dep_type t) ["e"])
          1 (some_if (t_freq_sup t) 9%Z) 8 0 5 0
          (some_if (t_book_names t) ["f"]) (some_if (t_book_categories t) ["g"])
          (some_if (t_book_periods t) ["h"]) (some_if (t_book_styles t) ["i"]).

Definition both (p : bool -> bool) : bool := p true && p false.

Definition for_all_tests (p : tests -> bool) : bool :=
  both (fun b1 => both (fun b2 => both (fun b3 => both (fun b4 => both (fun b5 =>
  both (fun b6 => both (fun b7 => both (fun b8 => both (fun b9 => both (fun b10 =>
    p (Tests b1 b2 b3 b4 b5 b6 b7 b8 b9 b10))))))))))).

Definition same_tests (r r' : request) : Prop := tests_of r = tests_of r'.

(** Whether any of the four book filters is supplied. *)
Definition any_book_filter (r : request) : bool :=
  truthy_list (book_names r) || truthy_list (book_categories r)
  || truthy_list (book_periods r) || truthy_list (book_styles r).

(** *** Properties settled by evaluation *)

(** A boolean equality that decides equality. *)
Class Beq (A : Type) := {
  beq : A -> A -> bool;
  beq_eq : forall x y, beq x y = true <-> x = y
}.

Fixpoint list_beq {A} (eqb : A -> A -> bool) (l l' : list A) : bool :=
  match l, l' with
  | [], [] => true
  | x :: l, y :: l' => if eqb x y then list_beq eqb l l' else false
  | _, _ => false
  end.

Definition option_beq {A} (eqb : A -> A -> bool) (o o' : option A) : bool :=
  match o, o' with
  | Some x, Some y => eqb x y
  | None, None => true
  | _, _ => false
  end.

Definition pair_beq {A B} (eqa : A -> A -> bool) (eqb : B -> B -> bool)
  (p q : A * B) : bool :=
  eqa (fst p) (fst q) && eqb (snd p) (snd q).

(** [Checks b P]: the boolean [b] being true is enough for [P]. *)
Class Checks (b : bool) (P : Prop) := checks : b = true -> P.
#[global] Hint Mode Checks - ! : typeclass_instances.

(** *** Sample stores and rows *)

(** A store that answers every query with no row. *)
Definition empty_store : store :=
  Store None (fun _ _ => inr []) (fun _ => "[...]").

(** A store whose [fetch] raises [e]. *)
Definition failing_store (e : exn) : store :=
  Store None (fun _ _ => inl e) (fun _ => "[...]").

Definition duplicate_key : exn :=
  PostgresError (Some "Key (id)=(7) already exists.")
                (Some "duplicate key value violates unique constraint")
                "duplicate key value violates unique constraint".

Definition sample_rows : list (gmap string value) :=
  [ {[ "head_text" := VStr "run"; "example_count" := VInt 4;
       "total_collocations_count" := VInt 3 ]};
    {[ "head_text" := VStr "rerun"; "example_count" := VInt 1;
       "total_collocations_count" := VInt 3 ]} ].

(** ** Lines 26-51: startup and shutdown *)

(** What [startup] and [shutdown] do to the outside, in order; a pool is
    known by a handle. *)
Inductive lifecycle_event :=
  | Print (msg : string)
  | LogLine (lv : level) (msg : string)
  | CreatePool (dsn : string)
  | ClosePool (p : nat).

(** The process environment, what [asyncpg.create_pool] answers for a
    DSN, and whether closing a pool raises. *)
Record host := Host {
  environ : gmap string string;
  create_pool : string -> exn + nat;
  close_pool : nat -> option exn
}.

(** [str(e)] *)
Definition exn_str (e : exn) : string :=
  match e with
  | PostgresError _ _ text => text
  | OtherException text => text
  end.

(** [startup()]: the state is [app.state.db_pool], [None] while the
    attribute is not set. The result is the trace, the state afterwards
    and whether the function returned or raised. *)
Definition startup (h : host) (state : option nat)
  : list lifecycle_event * option nat * (exn + unit) :=
  let database_url := environ h !! "DATABASE_URL" in
  let printed := [Print ("Using database URL: " +:+ fmt_str database_url)] in
  if negb (truthy_str database_url) then
    (printed, state,
     inl (OtherException "DATABASE_URL environment variable not set"))
  else
    match create_pool h (fmt_str database_url) with
    | inr p => (printed ++ [CreatePool (fmt_str database_url)], Some p, inr tt)
    | inl e =>
        (printed ++ [CreatePool (fmt_str database_url);
                     LogLine ERROR ("Failed to create database connection pool: "
                                    +:+ exn_str e)],
         state, inl e)
    end.

(** [shutdown()]: a pool object is true, so the test is whether the
    attribute is set; the state is left as it is. *)
Definition shutdown (h : host) (state : option nat)
  : list lifecycle_event * (exn + unit) :=
  match state with
  | Some p =>
      match close_pool h p with
      | Some e => ([ClosePool p], inl e)
      | None => ([ClosePool p; LogLine INFO "Database connection pool closed."], inr tt)
      end
  | None => ([], inr tt)
  end.

(** *** Variations of a request *)

(** A value that tests false, replaced by [None]. *)
Definition absent_if_empty_str (o : option string) : option string :=
  if truthy_str o then o else None.

Definition absent_if_empty_list (o : option (list string)) : option (list string) :=
  if truthy_list o then o else None.

(** The request with every empty string and empty list left out. *)
Definition normalize (r : request) : request :=
  Request (absent_if_empty_str (head_text r)) (absent_if_empty_list (head_pos r))
          (absent_if_empty_str (dpdt_text r)) (absent_if_empty_list (dpdt_pos r))
          (absent_if_empty_list (dep_type r))
          (freq_inf r) (freq_sup r) (results_limit r) (results_offset r)
          (examples_limit r) (examples_offset r)
          (absent_if_empty_list (book_names r))
          (absent_if_empty_list (book_categories r))
          (absent_if_empty_list (book_periods r))
          (absent_if_empty_list (book_styles r)).

(** The same request with other book filters. *)
Definition with_book_filters (names categories periods styles : option (list string))
  (r : request) : request :=
  Request (head_text r) (head_pos r) (dpdt_text r) (dpdt_pos r) (dep_type r)
          (freq_inf r) (freq_sup r) (results_limit r) (results_offset r)
          (examples_limit r) (examples_offset r)
          names categories periods styles.

(** The same request with another window over the collocations. *)
Definition with_results_window (limit offset : Z) (r : request) : request :=
  Request (head_text r) (head_pos r) (dpdt_text r) (dpdt_pos r) (dep_type r)
          (freq_inf r) (freq_sup r) limit offset
          (examples_limit r) (examples_offset r)
          (book_names r) (book_categories r) (book_periods r) (book_styles r).

(** The events of a search while the connection is held. *)
Definition held_events (st : store) (r : request) : list event :=
  [Log INFO ("Executing query with params: " +:+ repr st (params r));
   Fetch (query_template r) (params r);
   Release].

(** *** More sample data *)

Definition sample_empty_head : request :=
  Request (Some "") (Some []) (Some "fast") None None 5 None 2 0 5 0
          (Some []) None None None.

(** A store that answers every query with [rows]. *)
Definition answering_store (rows : list (gmap string value)) : store :=
  Store None (fun _ _ => inr rows) (fun _ => "[...]").

(** A store whose pool refuses to hand out a connection. *)
Definition exhausted_store : store :=
  Store (Some (OtherException "pool is closed")) (fun _ _ => inr []) (fun _ => "[...]").

Definition sample_host : host :=
  Host {[ "DATABASE_URL" := "postgresql://db/collocations" ]}
       (fun _ => inr 1) (fun _ => None).

Definition unreachable_host : host :=
  Host {[ "DATABASE_URL" := "postgresql://db/collocations" ]}
       (fun _ => inl (OtherException "connection refused")) (fun _ => None).

Definition unconfigured_host : host :=
  Host {[ "PATH" := "/usr/bin" ]} (fun _ => inr 1) (fun _ => None).

(** *** Reading what a placeholder stands next to *)

(** Where the reader stands: in the SQL, after one dash, or in a comment. *)
Inductive comment_state :=
  | InSql
  | AfterDash
  | InComment.

(** The text without its comments, which run from [--] to the end of the
    line. *)
Fixpoint uncomment_from (st : comment_state) (s : string) : string :=
  match s with
  | EmptyString =>
      match st with
      | AfterDash => "-"
      | _ => EmptyString
      end
  | String c s' =>
      match st with
      | InSql =>
          if Ascii.eqb c "-" then uncomment_from AfterDash s'
          else String c (uncomment_from InSql s')
      | AfterDash =>
          if Ascii.eqb c "-" then uncomment_from InComment s'
          else String "-" (String c (uncomment_from InSql s'))
      | InComment =>
          if Ascii.eqb c "010" then String c (uncomment_from InSql s')
          else uncomment_from InComment s'
      end
  end.

Definition uncomment (s : string) : string := uncomment_from InSql s.

(** A word, if there is one, with the depth it ends at. *)
Definition token (depth : nat) (w : string) : list (nat * string) :=
  match w with
  | EmptyString => []
  | _ => [(depth, w)]
  end.

(** The number of open parentheses after the character [c]. *)
Definition depth_after (depth : nat) (c : ascii) : nat :=
  if Ascii.eqb c "(" then S depth
  else if Ascii.eqb c ")" then pred depth
  else depth.

(** The words of a text, each with the number of parentheses that are
    open where the word ends. *)
Fixpoint tokens_from (depth : nat) (w s : string) : list (nat * string) :=
  match s with
  | EmptyString => token depth w
  | String c s' =>
      if is_space c then token depth w ++ tokens_from depth EmptyString s'
      else tokens_from (depth_after depth c) (w +:+ String c EmptyString) s'
  end.

Definition tokens (s : string) : list (nat * string) :=
  tokens_from 0 EmptyString (uncomment s).

(** A place of the query text where a placeholder stands: whether it is
    inside a subquery, what stands before it, and its index. *)
Record site := Site {
  site_nested : bool;
  site_label : string;
  site_index : nat
}.

(** What stands before a placeholder: the keyword [LIMIT] or [OFFSET], or
    else a column and a comparison. *)
Definition label_of (w2 w1 : string) : string :=
  if String.eqb w1 "LIMIT" then w1
  else if String.eqb w1 "OFFSET" then w1
  else w2 +:+ " " +:+ w1.

Fixpoint sites_from (w2 w1 : string) (toks : list (nat * string)) : list site :=
  match toks with
  | [] => []
  | (d, w) :: toks' =>
      map (Site (negb (Nat.eqb d 0)) (label_of w2 w1)) (placeholders w)
      ++ sites_from w1 w toks'
  end.

(** The places of a query text, in the order of the text. *)
Definition sites (q : string) : list site :=
  sites_from EmptyString EmptyString (tokens q).

(** The request fields that reach the argument list, in the fixed order
    of the numbering. *)
Inductive field :=
  | HeadText | DpdtText | HeadPos | DpdtPos | DepType
  | FreqInf | FreqSup
  | BookNames | BookCategories | BookPeriods | BookStyles
  | ExamplesLimit | ExamplesOffset
  | ResultsLimit | ResultsOffset.

Definition all_fields : list field :=
  [HeadText; DpdtText; HeadPos; DpdtPos; DepType;
   FreqInf; FreqSup;
   BookNames; BookCategories; BookPeriods; BookStyles;
   ExamplesLimit; ExamplesOffset;
   ResultsLimit; ResultsOffset].

Definition field_code (f : field) : nat :=
  match f with
  | HeadText => 0 | DpdtText => 1 | HeadPos => 2 | DpdtPos => 3 | DepType => 4
  | FreqInf => 5 | FreqSup => 6
  | BookNames => 7 | BookCategories => 8 | BookPeriods => 9 | BookStyles => 10
  | ExamplesLimit => 11 | ExamplesOffset => 12
  | ResultsLimit => 13 | ResultsOffset => 14
  end.

Definition field_eqb (f g : field) : bool := Nat.eqb (field_code f) (field_code g).

(** Whether the request supplies the field: the test the builder makes
    before it numbers the field and appends its value. *)
Definition supplied (r : request) (f : field) : bool :=
  match f with
  | HeadText => truthy_str (head_text r)
  | DpdtText => truthy_str (dpdt_text r)
  | HeadPos => truthy_list (head_pos r)
  | DpdtPos => truthy_list (dpdt_pos r)
  | DepType => truthy_list (dep_type r)
  | FreqSup => is_not_None (freq_sup r)
  | BookNames => truthy_list (book_names r)
  | BookCategories => truthy_list (book_categories r)
  | BookPeriods => truthy_list (book_periods r)
  | BookStyles => truthy_list (book_styles r)
  | FreqInf | ExamplesLimit | ExamplesOffset | ResultsLimit | ResultsOffset => true
  end.

(** The value the builder appends for the field. *)
Definition value_of (r : request) (f : field) : value :=
  match f with
  | HeadText => VStr ("%" +:+ fmt_str (head_text r) +:+ "%")
  | DpdtText => VStr ("%" +:+ fmt_str (dpdt_text r) +:+ "%")
  | HeadPos => list_value (head_pos r)
  | DpdtPos => list_value (dpdt_pos r)
  | DepType => list_value (dep_type r)
  | FreqInf => VInt (freq_inf r)
  | FreqSup => int_value (freq_sup r)
  | BookNames => list_value (book_names r)
  | BookCategories => list_value (book_categories r)
  | BookPeriods => list_value (book_periods r)
  | BookStyles => list_value (book_styles r)
  | ExamplesLimit => VInt (examples_limit r)
  | ExamplesOffset => VInt (examples_offset r)
  | ResultsLimit => VInt (results_limit r)
  | ResultsOffset => VInt (results_offset r)
  end.

(** The fields of the request that are supplied, in the fixed order. *)
Definition fixed_order (r : request) : list field :=
  List.filter (supplied r) all_fields.

(** What a place of the query text compares with, or limits: the columns
    of the collocation view and the window of the collocations outside the
    subqueries, the columns of [books] and the window of the examples
    inside them. *)
Definition outer_fields : list (string * field) :=
  [("head_text LIKE", HeadText);
   ("dependent_text LIKE", DpdtText);
   ("head_pos =", HeadPos);
   ("dependent_pos =", DpdtPos);
   ("dependency_type =", DepType);
   ("mv_token_collocations.frequency >=", FreqInf);
   ("mv_token_collocations.frequency <=", FreqSup);
   ("LIMIT", ResultsLimit);
   ("OFFSET", ResultsOffset)].

Definition nested_fields : list (string * field) :=
  [("name =", BookNames);
   ("category =", BookCategories);
   ("period =", BookPeriods);
   ("style =", BookStyles);
   ("LIMIT", ExamplesLimit);
   ("OFFSET", ExamplesOffset)].

(** The first entry of a table under [key]. *)
Fixpoint assoc {A} (key : string) (l : list (string * A)) : option A :=
  match l with
  | [] => None
  | (k, a) :: l' => if String.eqb k key then Some a else assoc key l'
  end.

(** The field a placeholder at this place stands for. *)
Definition field_of (s : site) : option field :=
  assoc (site_label s) (if site_nested s then nested_fields else outer_fields).

(** Whether the place stands for the field that the order numbers with its
    index. *)
Definition site_agrees (order : list field) (s : site) : bool :=
  match field_of s, order !! (site_index s - 1) with
  | Some f, Some g => Nat.ltb 0 (site_index s) && field_eqb f g
  | _, _ => false
  end.

(** Whether the index [i] has a place among [ss]. *)
Definition site_of (ss : list site) (i : nat) : bool :=
  existsb (fun s => Nat.eqb (site_index s) i) ss.

(** Every place agrees with the order, the places are where the
    placeholders [ps] are, and every index of the order has a place. *)
Definition check_sites (order : list field) (ss : list site) (ps : list nat) : bool :=
  forallb (site_agrees order) ss
  && list_beq Nat.eqb (map site_index ss) ps
  && forallb (site_of ss) (seq 1 (length order)).

(** *** Reading the select list *)





(** ** Lines 87-88 and 254-277 when an await can be cancelled *)

(** What an [await] can raise: an [Exception], or a [BaseException] that
    is none, such as [asyncio.CancelledError] when the request is
    cancelled. The handlers at lines 272 and 275 catch the first kind
    only. *)
Inductive raised :=
  | AnException (e : exn)
  | ABaseException (name : string).

(** The collaborators, with all they can raise. *)
Record async_store := AsyncStore {
  async_acquire_failure : option raised;
  async_fetch : string -> list value -> raised + list (gmap string value);
  async_repr : list value -> string
}.

Definition async_io (A : Type) : Type := list event * (raised + A).

#[global] Instance async_ret : MRet async_io := fun A (a : A) => ([], inr a).

#[global] Instance async_bind : MBind async_io :=
  fun A B (k : A -> async_io B) (m : async_io A) =>
    match m with
    | (tr, inl e) => (tr, inl e)
    | (tr, inr a) => let '(tr', b) := k a in (tr ++ tr', b)
    end.

(** What synchronous code raises is an [Exception]. *)
Definition as_raised {A} (res : exn + A) : raised + A :=
  match res with
  | inl e => inl (AnException e)
  | inr a => inr a
  end.

(** [async with app.state.db_pool.acquire() as connection: body]; the
    connection goes back to the pool however the body ends, also when it
    is cancelled. *)
Definition async_with_connection {A} (st : async_store) (body : async_io A) : async_io A :=
  match async_acquire_failure st with
  | Some e => ([Acquire], inl e)
  | None => let '(tr, res) := body in (Acquire :: tr ++ [Release], res)
  end.

Definition async_run_query (st : async_store) (r : request) : async_io response :=
  let '(query, args) := build_query r in
  _ ← ([Log INFO ("Executing query with params: " +:+ async_repr st args)], inr tt);
  result ← ([Fetch query args], async_fetch st query args);
  ([], as_raised (shape_result result)).

(** How a call of [search_dependencies] ends: it returns the response,
    raises an [HTTPException], or lets a [BaseException] through. *)
Inductive outcome :=
  | Returns (resp : response)
  | Raises (e : http_exception)
  | Propagates (name : string).

Definition async_search_dependencies (st : async_store) (r : request)
  : list event * outcome :=
  if negb (truthy_str (head_text r)) && negb (truthy_str (dpdt_text r)) then
    ([], Raises (HTTPException 400
                   "At least one of 'head_text' or 'dpdt_text' must be provided."))
  else
    match async_with_connection st (async_run_query st r) with
    | (tr, inr resp) => (tr, Returns resp)
    | (tr, inl (AnException (PostgresError detail message text))) =>
        (tr ++ [Log ERROR ("Database error: " +:+ text)],
         Raises (HTTPException 500 ("Database error: " +:+ fmt_str (py_or detail message))))
    | (tr, inl (AnException (OtherException text))) =>
        (tr ++ [Log ERROR ("An unexpected error occurred: " +:+ text)],
         Raises (HTTPException 500 "Internal Server Error"))
    | (tr, inl (ABaseException name)) => (tr, Propagates name)
    end.

(** A store that raises nothing but [Exception]s. *)
Definition uninterrupted (st : store) : async_store :=
  AsyncStore (AnException <$> acquire_failure st)
            (fun q args => as_raised (fetch st q args))
            (repr st).

Definition as_outcome (res : http_exception + response) : outcome :=
  match res with
  | inl e => Raises e
  | inr resp => Returns resp
  end.

(** The events of such a search while the connection is held. *)
Definition async_held_events (st : async_store) (r : request) : list event :=
  [Log INFO ("Executing query with params: " +:+ async_repr st (params r));
   Fetch (query_template r) (params r);
   Release].

(** What is raised inside the [try], if anything: by the acquire, else by
    the fetch, else by the lookup of the total in the first row. *)
Definition raised_in_try (st : async_store) (r : request) : option raised :=
  match async_acquire_failure st with
  | Some e => Some e
  | None =>
      match async_fetch st (query_template r) (params r) with
      | inl e => Some e
      | inr rows =>
          match shape_result rows with
          | inl e => Some (AnException e)
          | inr _ => None
          end
      end
  end.

(** A store whose [fetch] is cancelled. *)
Definition cancelled_store : async_store :=
  AsyncStore None (fun _ _ => inl (ABaseException "CancelledError")) (fun _ => "[...]").

(** * Lemmas *)

Lemma both_spec (p : bool -> bool) : both p = true -> forall b, p b = true.
Proof.
  unfold both. intros H b. apply andb_true_iff in H as [Ht Hf].
  destruct b; assumption.
Qed.

Lemma for_all_tests_spec (p : tests -> bool) :
  for_all_tests p = true -> forall t, p t = true.
Proof.
  intros H [b1 b2 b3 b4 b5 b6 b7 b8 b9 b10]. unfold for_all_tests in H.
  pose proof (both_spec _ H b1) as H1; cbv beta in H1.
  pose proof (both_spec _ H1 b2) as H2; cbv beta in H2.
  pose proof (both_spec _ H2 b3) as H3; cbv beta in H3.
  pose proof (both_spec _ H3 b4) as H4; cbv beta in H4.
  pose proof (both_spec _ H4 b5) as H5; cbv beta in H5.
  pose proof (both_spec _ H5 b6) as H6; cbv beta in H6.
  pose proof (both_spec _ H6 b7) as H7; cbv beta in H7.
  pose proof (both_spec _ H7 b8) as H8; cbv beta in H8.
  pose proof (both_spec _ H8 b9) as H9; cbv beta in H9.
  exact (both_spec _ H9 b10).
Qed.

Lemma list_beq_eq {A} (eqb : A -> A -> bool) :
  (forall x y, eqb x y = true <-> x = y) ->
  forall l l', list_beq eqb l l' = true <-> l = l'.
Proof.
  intros Heq. induction l as [|x l IH]; intros [|y l']; cbn;
    try (split; [discriminate|discriminate]); [tauto|].
  specialize (Heq x y). specialize (IH l').
  destruct (eqb x y).
  - rewrite IH. split; [intros ->; f_equal; now apply Heq|now intros [= _ ->]].
  - split; [discriminate|]. intros [= Hxy _]. apply Heq in Hxy. discriminate Hxy.
Qed.

Lemma option_beq_eq {A} (eqb : A -> A -> bool) :
  (forall x y, eqb x y = true <-> x = y) ->
  forall o o', option_beq eqb o o' = true <-> o = o'.
Proof.
  intros Heq [x|] [y|]; cbn; try (split; [discriminate|discriminate]); [|tauto].
  rewrite Heq. split; [now intros ->|now intros [= ->]].
Qed.

Lemma pair_beq_eq {A B} (eqa : A -> A -> bool) (eqb : B -> B -> bool) :
  (forall x y, eqa x y = true <-> x = y) ->
  (forall x y, eqb x y = true <-> x = y) ->
  forall p q, pair_beq eqa eqb p q = true <-> p = q.
Proof.
  intros Ha Hb [a b] [a' b']. unfold pair_beq; cbn.
  rewrite andb_true_iff, Ha, Hb. split.
  - now intros [-> ->].
  - now intros [= -> ->].
Qed.

#[global] Instance nat_Beq : Beq nat := Build_Beq nat Nat.eqb Nat.eqb_eq.
#[global] Instance string_Beq : Beq string := Build_Beq string String.eqb String.eqb_eq.
#[global] Instance bool_Beq : Beq bool := Build_Beq bool Bool.eqb Bool.eqb_true_iff.
#[global] Instance list_Beq {A} `{Beq A} : Beq (list A) :=
  Build_Beq (list A) (list_beq beq) (list_beq_eq beq beq_eq).
#[global] Instance option_Beq {A} `{Beq A} : Beq (option A) :=
  Build_Beq (option A) (option_beq beq) (option_beq_eq beq beq_eq).
#[global] Instance pair_Beq {A B} `{Beq A} `{Beq B} : Beq (A * B) :=
  Build_Beq (A * B) (pair_beq beq beq) (pair_beq_eq beq beq beq_eq beq_eq).

#[global] Instance Checks_eq {A} `{Beq A} (x y : A) : Checks (beq x y) (x = y).
Proof. intros E. now apply beq_eq. Qed.

#[global] Instance Checks_neq {A} `{Beq A} (x y : A) : Checks (negb (beq x y)) (x <> y).
Proof.
  intros E Hxy. apply beq_eq in Hxy. rewrite Hxy in E. discriminate E.
Qed.

#[global] Instance Checks_and b c P Q :
  Checks b P -> Checks c Q -> Checks (b && c) (P /\ Q).
Proof. intros HP HQ E. apply andb_true_iff in E as [Eb Ec]. split; auto. Qed.

#[global] Instance Checks_if_true (a : bool) c Q :
  Checks c Q -> Checks (implb a c) (a = true -> Q).
Proof. intros HQ E ->. exact (HQ E). Qed.

#[global] Instance Checks_if_false (a : bool) c Q :
  Checks c Q -> Checks (implb (negb a) c) (a = false -> Q).
Proof. intros HQ E ->. exact (HQ E). Qed.

(** A property that checks on every specimen holds for every outcome of
    the tests. *)
Lemma tests_ind (P : tests -> Prop) (b : tests -> bool) :
  (forall t, Checks (b t) (P t)) ->
  for_all_tests b = true -> forall t, P t.
Proof.
  intros Hc Hall t. apply (Hc t). exact (for_all_tests_spec b Hall t).
Qed.

Ltac check_all_tests :=
  lazymatch goal with
  | |- forall t : tests, @?P t =>
      refine (tests_ind P _ (fun t => _) _);
      cbv [beq nat_Beq string_Beq bool_Beq list_Beq option_Beq pair_Beq];
      vm_cast_no_check (eq_refl true)
  end.

(** *** The query text depends on the request through the tests only *)

Ltac tests_equations H :=
  unfold same_tests, tests_of in H;
  injection H as Hht Hdt Hhp Hdp Hdy Hfs Hbn Hbc Hbp Hbs.

Lemma specimen_same_tests r : same_tests r (specimen (tests_of r)).
Proof.
  unfold same_tests, tests_of, specimen; cbn.
  f_equal;
    match goal with
    | |- ?b = _ => destruct b; reflexivity
    end.
Qed.

Lemma where_like_text column o o' st st' :
  truthy_str o = truthy_str o' ->
  b_where_clauses st = b_where_clauses st' ->
  b_param_counter st = b_param_counter st' ->
  b_where_clauses (where_like column o st) = b_where_clauses (where_like column o' st') /\
  b_param_counter (where_like column o st) = b_param_counter (where_like column o' st').
Proof.
  unfold where_like. intros <- Hc Hn.
  destruct (truthy_str o); cbn; rewrite ?Hc, ?Hn; auto.
Qed.

Lemma where_any_text column o o' st st' :
  truthy_list o = truthy_list o' ->
  b_where_clauses st = b_where_clauses st' ->
  b_param_counter st = b_param_counter st' ->
  b_where_clauses (where_any column o st) = b_where_clauses (where_any column o' st') /\
  b_param_counter (where_any column o st) = b_param_counter (where_any column o' st').
Proof.
  unfold where_any. intros <- Hc Hn.
  destruct (truthy_list o); cbn; rewrite ?Hc, ?Hn; auto.
Qed.

Lemma where_builder_text r r' :
  same_tests r r' ->
  b_where_clauses (where_builder r) = b_where_clauses (where_builder r') /\
  b_param_counter (where_builder r) = b_param_counter (where_builder r').
Proof.
  intros H. tests_equations H. unfold where_builder.
  destruct (where_like_text "head_text" (head_text r) (head_text r')
              builder_init builder_init Hht eq_refl eq_refl) as [C1 N1].
  destruct (where_like_text "dependent_text" _ _ _ _ Hdt C1 N1) as [C2 N2].
  destruct (where_any_text "head_pos" _ _ _ _ Hhp C2 N2) as [C3 N3].
  destruct (where_any_text "dependent_pos" _ _ _ _ Hdp C3 N3) as [C4 N4].
  exact (where_any_text "dependency_type" _ _ _ _ Hdy C4 N4).
Qed.

Lemma where_clauses_text r r' : same_tests r r' -> where_clauses r = where_clauses r'.
Proof. intros H. apply (where_builder_text r r' H). Qed.

Lemma final_where_sql_text r r' : same_tests r r' -> final_where_sql r = final_where_sql r'.
Proof. intros H. unfold final_where_sql. now rewrite (where_clauses_text r r' H). Qed.

Lemma assign_positions_text r r' n :
  same_tests r r' -> assign_positions r n = assign_positions r' n.
Proof.
  intros H. tests_equations H. unfold assign_positions.
  now rewrite Hfs, Hbn, Hbc, Hbp, Hbs.
Qed.

Lemma pos_text r r' : same_tests r r' -> pos r = pos r'.
Proof.
  intros H. unfold pos.
  destruct (where_builder_text r r' H) as [_ ->].
  now rewrite (assign_positions_text r r' _ H).
Qed.

Lemma param_counter_text r r' : same_tests r r' -> param_counter r = param_counter r'.
Proof.
  intros H. unfold param_counter.
  destruct (where_builder_text r r' H) as [_ ->].
  now rewrite (assign_positions_text r r' _ H).
Qed.

Lemma book_positions_text r r' : same_tests r r' -> book_positions r = book_positions r'.
Proof. intros H. unfold book_positions. now rewrite (pos_text r r' H). Qed.

Lemma book_filter_conditions_text r r' :
  same_tests r r' -> book_filter_conditions r = book_filter_conditions r'.
Proof.
  intros H. unfold book_filter_conditions. rewrite (pos_text r r' H).
  tests_equations H. now rewrite Hbn, Hbc, Hbp, Hbs.
Qed.

Lemma books_filter_inner_sql_text r r' :
  same_tests r r' -> books_filter_inner_sql r = books_filter_inner_sql r'.
Proof.
  intros H. unfold books_filter_inner_sql.
  now rewrite (book_filter_conditions_text r r' H).
Qed.

Lemma example_fetch_sql_text r r' :
  same_tests r r' -> example_fetch_sql r = example_fetch_sql r'.
Proof.
  intros H. unfold example_fetch_sql.
  now rewrite (books_filter_inner_sql_text r r' H), (pos_text r r' H).
Qed.

Lemma total_matching_examples_count_sql_text r r' :
  same_tests r r' ->
  total_matching_examples_count_sql r = total_matching_examples_count_sql r'.
Proof.
  intros H. unfold total_matching_examples_count_sql.
  now rewrite (books_filter_inner_sql_text r r' H).
Qed.

Lemma where_section_text r r' : same_tests r r' -> where_section r = where_section r'.
Proof.
  intros H. unfold where_section.
  rewrite (final_where_sql_text r r' H), (pos_text r r' H).
  tests_equations H. now rewrite Hfs.
Qed.

Lemma limit_section_text r r' : same_tests r r' -> limit_section r = limit_section r'.
Proof. intros H. unfold limit_section. now rewrite (pos_text r r' H). Qed.

Lemma after_example_fetch_text r r' :
  same_tests r r' -> after_example_fetch r = after_example_fetch r'.
Proof.
  intros H. unfold after_example_fetch.
  now rewrite (total_matching_examples_count_sql_text r r' H),
    (where_section_text r r' H), (limit_section_text r r' H).
Qed.

(** No value of the request reaches the query text: two requests on which
    the tests agree get the same text. *)
Lemma query_template_text r r' : same_tests r r' -> query_template r = query_template r'.
Proof.
  intros H. unfold query_template.
  now rewrite (example_fetch_sql_text r r' H), (after_example_fetch_text r r' H).
Qed.

(** *** The WHERE builder appends what the specification lists *)

Lemma numbered_app i l l' :
  numbered i (l ++ l') = numbered i l ++ numbered (i + length l) l'.
Proof.
  revert i. induction l as [|[f v] l IH]; intros i; cbn.
  - now rewrite Nat.add_0_r.
  - rewrite IH. now replace (i + S (length l)) with (S i + length l) by lia.
Qed.

Lemma numbered_length i l : length (numbered i l) = length l.
Proof.
  revert i. induction l as [|[f v] l IH]; intros i; cbn; [reflexivity|].
  now rewrite IH.
Qed.

Lemma numbered_lookup i l j f v :
  l !! j = Some (f, v) -> numbered i l !! j = Some (f (i + j)).
Proof.
  revert i j. induction l as [|[g w] l IH]; intros i j Hj; [discriminate|].
  destruct j as [|j]; cbn in *.
  - injection Hj as -> ->. now rewrite Nat.add_0_r.
  - replace (i + S j) with (S i + j) by lia. exact (IH (S i) j Hj).
Qed.

Lemma where_like_spec column o st :
  where_like column o st =
  Builder (b_where_clauses st ++ numbered (b_param_counter st) (like_predicate column o))
          (b_params st ++ map snd (like_predicate column o))
          (b_param_counter st + length (like_predicate column o)).
Proof.
  destruct st as [cl ps n]. unfold where_like.
  destruct o as [[|c s]|]; cbn; rewrite ?app_nil_r, ?Nat.add_0_r; reflexivity.
Qed.

Lemma where_any_spec column o st :
  where_any column o st =
  Builder (b_where_clauses st ++ numbered (b_param_counter st) (member_predicate column o))
          (b_params st ++ map snd (member_predicate column o))
          (b_param_counter st + length (member_predicate column o)).
Proof.
  destruct st as [cl ps n]. unfold where_any.
  destruct o as [[|x l]|]; cbn; rewrite ?app_nil_r, ?Nat.add_0_r; reflexivity.
Qed.

Lemma where_builder_spec r :
  where_builder r =
  Builder (numbered 1 (spec_predicates r)) (map snd (spec_predicates r))
          (1 + length (spec_predicates r)).
Proof.
  unfold where_builder, spec_predicates.
  rewrite !where_any_spec, !where_like_spec. cbn [b_where_clauses b_params b_param_counter builder_init].
  rewrite !numbered_app, !map_app, !length_app. cbn [app].
  rewrite <- !app_assoc. f_equal. lia.
Qed.

Lemma params_spec r : params r = map snd (spec_predicates r) ++ spec_tail_values r.
Proof.
  unfold params, spec_tail_values, append_if. rewrite where_builder_spec.
  cbn [b_params].
  destruct (is_not_None (freq_sup r)), (truthy_list (book_names r)),
    (truthy_list (book_categories r)), (truthy_list (book_periods r)),
    (truthy_list (book_styles r)); cbn [app]; rewrite <- ?app_assoc; reflexivity.
Qed.

(** The counter stands one past the number of arguments. *)
Lemma param_counter_params r : param_counter r = S (length (params r)).
Proof.
  rewrite params_spec. unfold param_counter, spec_tail_values, assign_positions.
  rewrite where_builder_spec. cbn [b_param_counter]. rewrite length_app, length_map.
  destruct (is_not_None (freq_sup r)), (truthy_list (book_names r)),
    (truthy_list (book_categories r)), (truthy_list (book_periods r)),
    (truthy_list (book_styles r));
    cbv [mbind mret counting_bind counting_ret take_pos take_pos_if snd];
    cbn [length app]; lia.
Qed.

Lemma length_params_text r r' : same_tests r r' -> length (params r) = length (params r').
Proof.
  intros H. apply (inj S). rewrite <- !param_counter_params.
  now apply param_counter_text.
Qed.

Lemma where_positions_text r r' : same_tests r r' -> where_positions r = where_positions r'.
Proof. intros H. unfold where_positions. now rewrite (where_clauses_text r r' H). Qed.

Lemma assigned_positions_text r r' :
  same_tests r r' -> assigned_positions r = assigned_positions r'.
Proof.
  intros H. unfold assigned_positions.
  now rewrite (pos_text r r' H), (book_positions_text r r' H).
Qed.

Lemma text_order_text r r' : same_tests r r' -> text_order r = text_order r'.
Proof.
  intros H. unfold text_order.
  now rewrite (pos_text r r' H), (book_positions_text r r' H), (where_positions_text r r' H).
Qed.

(** *** From a request to its specimen *)

Ltac to_specimen r :=
  let S := constr:(specimen_same_tests r) in
  unfold has_text_filter;
  change (truthy_str (head_text r)) with (t_head_text (tests_of r));
  change (truthy_str (dpdt_text r)) with (t_dpdt_text (tests_of r));
  change (truthy_list (head_pos r)) with (t_head_pos (tests_of r));
  change (truthy_list (dpdt_pos r)) with (t_dpdt_pos (tests_of r));
  change (truthy_list (dep_type r)) with (t_dep_type (tests_of r));
  change (is_not_None (freq_sup r)) with (t_freq_sup (tests_of r));
  change (truthy_list (book_names r)) with (t_book_names (tests_of r));
  change (truthy_list (book_categories r)) with (t_book_categories (tests_of r));
  change (truthy_list (book_periods r)) with (t_book_periods (tests_of r));
  change (truthy_list (book_styles r)) with (t_book_styles (tests_of r));
  rewrite ?(query_template_text r _ S), ?(example_fetch_sql_text r _ S),
    ?(after_example_fetch_text r _ S),
    ?(total_matching_examples_count_sql_text r _ S),
    ?(books_filter_inner_sql_text r _ S), ?(book_filter_conditions_text r _ S),
    ?(where_section_text r _ S), ?(limit_section_text r _ S),
    ?(final_where_sql_text r _ S), ?(where_clauses_text r _ S),
    ?(text_order_text r _ S), ?(assigned_positions_text r _ S),
    ?(where_positions_text r _ S), ?(book_positions_text r _ S),
    ?(length_params_text r _ S), ?(pos_text r _ S);
  generalize (tests_of r).

(** The placeholders of the query, read back from its text. *)
Lemma placeholders_query_template r : placeholders (query_template r) = text_order r.
Proof. to_specimen r. check_all_tests. Qed.

Lemma placeholders_example_fetch_sql r :
  placeholders (example_fetch_sql r)
  = book_positions r ++ [examples_limit_pos (pos r); examples_offset_pos (pos r)].
Proof. to_specimen r. check_all_tests. Qed.

Lemma placeholders_total_matching_examples_count_sql r :
  placeholders (total_matching_examples_count_sql r) = book_positions r.
Proof. to_specimen r. check_all_tests. Qed.

Lemma placeholders_books_filter_inner_sql r :
  placeholders (books_filter_inner_sql r) = book_positions r.
Proof. to_specimen r. check_all_tests. Qed.

(** The positions, listed in the order of assignment, count up from one. *)
Lemma positions_consecutive r :
  where_positions r ++ assigned_positions r = seq 1 (length (params r)).
Proof. to_specimen r. check_all_tests. Qed.

Lemma text_order_counts r :
  forallb (in_range (length (params r))) (text_order r) = true /\
  occs (text_order r) (length (params r))
  = map (fun c => if 0 <? c then 2 else 1)
        (occs (book_positions r) (length (params r))).
Proof. to_specimen r. check_all_tests. Qed.

Lemma occ_positive i l : 0 < occ i l <-> i ∈ l.
Proof.
  induction l as [|x l IH]; cbn.
  - split; [lia|intros H; now apply elem_of_nil in H].
  - rewrite elem_of_cons. destruct (Nat.eqb_spec x i) as [->|Hne].
    + split; [now left|lia].
    + rewrite <- IH. cbn. split; [now right|intros [->|H]; [congruence|exact H]].
Qed.

Lemma text_order_occ_books r i :
  1 <= i <= length (params r) ->
  occ i (text_order r) = if 0 <? occ i (book_positions r) then 2 else 1.
Proof.
  intros Hi. destruct (text_order_counts r) as [_ Hcount].
  unfold occs in Hcount. rewrite map_map in Hcount.
  apply (proj1 map_ext_in_iff Hcount i), in_seq. lia.
Qed.

Lemma text_order_range r i : i ∈ text_order r <-> 1 <= i <= length (params r).
Proof.
  destruct (text_order_counts r) as [Hrange Hcount]. split.
  - intros Hi. rewrite forallb_forall in Hrange.
    specialize (Hrange i (proj1 (list_elem_of_In _ _) Hi)).
    unfold in_range in Hrange. apply andb_true_iff in Hrange as [H1 H2].
    apply Nat.leb_le in H1, H2. lia.
  - intros Hi. apply occ_positive. rewrite (text_order_occ_books r i Hi).
    destruct (0 <? occ i (book_positions r)); lia.
Qed.

Lemma text_order_occ r i :
  1 <= i <= length (params r) ->
  occ i (text_order r) = if bool_decide (i ∈ book_positions r) then 2 else 1.
Proof.
  intros Hi. rewrite (text_order_occ_books r i Hi).
  destruct (Nat.ltb_spec 0 (occ i (book_positions r))) as [Hpos|Hzero].
  - apply occ_positive in Hpos. now rewrite bool_decide_eq_true_2.
  - rewrite bool_decide_eq_false_2; [reflexivity|].
    intros Hin. apply occ_positive in Hin. lia.
Qed.

Lemma text_order_distinct r :
  length (remove_dups (text_order r)) = length (params r).
Proof.
  transitivity (length (seq 1 (length (params r)))); [|apply length_seq].
  apply Permutation_length, NoDup_Permutation.
  - apply NoDup_remove_dups.
  - apply NoDup_seq.
  - intros i. rewrite elem_of_remove_dups, text_order_range, elem_of_seq. lia.
Qed.

(** * The claims, each after the lemmas it rests on *)

(** C1, as stated, fails: with a book filter supplied its placeholder
    stands in both example subqueries, so index 3 of [sample_books] occurs
    twice in the query text and not exactly once. *)
Lemma C1_book_placeholder_twice :
  valid_request sample_books /\
  ~ (forall i, 1 <= i <= length (params sample_books) ->
               occ i (placeholders (query_template sample_books)) = 1).
Proof.
  split.
  - unfold valid_request; cbn; repeat split; lia.
  - intros H. specialize (H 3). vm_compute in H.
    assert (2 = 1) as E by (apply H; split; repeat constructor).
    discriminate E.
Qed.

(** C1, amended: for every valid request the query text refers to as many
    distinct placeholder indices as there are bound parameters, the
    indices referred to are exactly 1..N, and each of them occurs exactly
    once, except the index of a supplied book filter, which occurs exactly
    twice (once in each example subquery). *)
Theorem C1_placeholders_match_params r :
  valid_request r ->
  let ps := placeholders (query_template r) in
  let n := length (params r) in
  length (remove_dups ps) = n /\
  (forall i, i ∈ ps <-> 1 <= i <= n) /\
  (forall i, 1 <= i <= n ->
             occ i ps = if bool_decide (i ∈ book_positions r) then 2 else 1).
Proof.
  intros _ ps n. subst ps n. rewrite placeholders_query_template.
  split; [apply text_order_distinct|].
  split; [apply text_order_range|apply text_order_occ].
Qed.

Lemma C1_placeholders_match_params_witness :
  valid_request sample_books /\
  length (remove_dups (placeholders (query_template sample_books))) = 7 /\
  occ 1 (placeholders (query_template sample_books)) = 1 /\
  occ 3 (placeholders (query_template sample_books)) = 2.
Proof.
  assert (Hv : valid_request sample_books).
  { unfold valid_request; cbn; repeat split; lia. }
  destruct (C1_placeholders_match_params sample_books Hv) as (Hd & _ & Hc).
  split; [exact Hv|]. split; [exact Hd|]. split.
  - apply (Hc 1). cbn. lia.
  - apply (Hc 3). cbn. lia.
Defined.

(** *** Where the positions fall, and what the argument list holds there *)

Lemma assign_positions_spec r n :
  let fs := is_not_None (freq_sup r) in
  let bn := truthy_list (book_names r) in
  let bc := truthy_list (book_categories r) in
  let bp := truthy_list (book_periods r) in
  let bs := truthy_list (book_styles r) in
  let m := n + 1 + bit fs + bit bn + bit bc + bit bp + bit bs in
  assign_positions r n =
  (Positions n (some_if fs (n + 1))
             (some_if bn (n + 1 + bit fs))
             (some_if bc (n + 1 + bit fs + bit bn))
             (some_if bp (n + 1 + bit fs + bit bn + bit bc))
             (some_if bs (n + 1 + bit fs + bit bn + bit bc + bit bp))
             m (m + 1) (m + 2) (m + 3),
   m + 4).
Proof.
  unfold assign_positions.
  destruct (is_not_None (freq_sup r)), (truthy_list (book_names r)),
    (truthy_list (book_categories r)), (truthy_list (book_periods r)),
    (truthy_list (book_styles r));
    cbv [mbind mret counting_bind counting_ret take_pos take_pos_if some_if bit];
    repeat (f_equal; try lia).
Qed.

Lemma pos_spec r :
  let k := length (spec_predicates r) in
  let fs := is_not_None (freq_sup r) in
  let bn := truthy_list (book_names r) in
  let bc := truthy_list (book_categories r) in
  let bp := truthy_list (book_periods r) in
  let bs := truthy_list (book_styles r) in
  let m := k + 2 + bit fs + bit bn + bit bc + bit bp + bit bs in
  pos r = Positions (k + 1) (some_if fs (k + 2))
             (some_if bn (k + 2 + bit fs))
             (some_if bc (k + 2 + bit fs + bit bn))
             (some_if bp (k + 2 + bit fs + bit bn + bit bc))
             (some_if bs (k + 2 + bit fs + bit bn + bit bc + bit bp))
             m (m + 1) (m + 2) (m + 3).
Proof.
  cbv zeta. unfold pos. rewrite assign_positions_spec, where_builder_spec.
  cbn [fst b_param_counter]. f_equal; try (f_equal; lia); lia.
Qed.

Lemma lookup_params_tail r c :
  params r !! (length (spec_predicates r) + c) = spec_tail_values r !! c.
Proof.
  rewrite params_spec, lookup_app_r; rewrite length_map; [|lia].
  f_equal. lia.
Qed.

Lemma lookup_params_head r j :
  j < length (spec_predicates r) -> params r !! j = map snd (spec_predicates r) !! j.
Proof.
  intros Hj. rewrite params_spec, lookup_app_l; [reflexivity|].
  now rewrite length_map.
Qed.

(** What each position variable stands for is what the argument list
    holds at that position. *)
Lemma denotations_bound r p v i :
  (p, v) ∈ denotations r -> p = Some i -> params r !! (i - 1) = Some v.
Proof.
  unfold denotations. rewrite (pos_spec r). cbn [freq_inf_pos freq_sup_pos
    book_names_pos categories_pos periods_pos styles_pos examples_limit_pos
    examples_offset_pos results_limit_pos results_offset_pos].
  set (k := length (spec_predicates r)).
  intros Hin Hp.
  repeat (apply elem_of_cons in Hin as [Hin|Hin]);
    [injection Hin as -> -> .. | now apply elem_of_nil in Hin];
    unfold some_if in Hp.
  - injection Hp as <-. replace (k + 1 - 1) with (k + 0) by lia.
    unfold k. rewrite lookup_params_tail. reflexivity.
  - destruct (is_not_None (freq_sup r)) eqn:E; [|discriminate].
    injection Hp as <-. replace (k + 2 - 1) with (k + 1) by lia.
    unfold k. rewrite lookup_params_tail. unfold spec_tail_values.
    rewrite E. reflexivity.
  - destruct (truthy_list (book_names r)) eqn:E; [|discriminate].
    injection Hp as <-.
    replace (k + 2 + bit (is_not_None (freq_sup r)) - 1)
      with (k + (1 + bit (is_not_None (freq_sup r)))) by lia.
    unfold k. rewrite lookup_params_tail. unfold spec_tail_values. rewrite E.
    destruct (is_not_None (freq_sup r)); reflexivity.
  - destruct (truthy_list (book_categories r)) eqn:E; [|discriminate].
    injection Hp as <-.
    replace (k + 2 + bit (is_not_None (freq_sup r)) + bit (truthy_list (book_names r)) - 1)
      with (k + (1 + bit (is_not_None (freq_sup r)) + bit (truthy_list (book_names r))))
      by lia.
    unfold k. rewrite lookup_params_tail. unfold spec_tail_values. rewrite E.
    destruct (is_not_None (freq_sup r)), (truthy_list (book_names r)); reflexivity.
  - destruct (truthy_list (book_periods r)) eqn:E; [|discriminate].
    injection Hp as <-.
    replace (k + 2 + bit (is_not_None (freq_sup r)) + bit (truthy_list (book_names r))
             + bit (truthy_list (book_categories r)) - 1)
      with (k + (1 + bit (is_not_None (freq_sup r)) + bit (truthy_list (book_names r))
                 + bit (truthy_list (book_categories r))))
      by lia.
    unfold k. rewrite lookup_params_tail. unfold spec_tail_values. rewrite E.
    destruct (is_not_None (freq_sup r)), (truthy_list (book_names r)),
      (truthy_list (book_categories r)); reflexivity.
  - destruct (truthy_list (book_styles r)) eqn:E; [|discriminate].
    injection Hp as <-.
    replace (k + 2 + bit (is_not_None (freq_sup r)) + bit (truthy_list (book_names r))
             + bit (truthy_list (book_categories r))
             + bit (truthy_list (book_periods r)) - 1)
      with (k + (1 + bit (is_not_None (freq_sup r)) + bit (truthy_list (book_names r))
                 + bit (truthy_list (book_categories r))
                 + bit (truthy_list (book_periods r))))
      by lia.
    unfold k. rewrite lookup_params_tail. unfold spec_tail_values. rewrite E.
    destruct (is_not_None (freq_sup r)), (truthy_list (book_names r)),
      (truthy_list (book_categories r)), (truthy_list (book_periods r)); reflexivity.
  - injection Hp as <-.
    match goal with
    | |- params r !! (k + 2 + ?a + ?b + ?c + ?d + ?e - 1) = _ =>
        replace (k + 2 + a + b + c + d + e - 1) with (k + (1 + a + b + c + d + e)) by lia
    end.
    unfold k. rewrite lookup_params_tail. unfold spec_tail_values.
    destruct (is_not_None (freq_sup r)), (truthy_list (book_names r)),
      (truthy_list (book_categories r)), (truthy_list (book_periods r)),
      (truthy_list (book_styles r)); reflexivity.
  - injection Hp as <-.
    match goal with
    | |- params r !! (k + 2 + ?a + ?b + ?c + ?d + ?e + 1 - 1) = _ =>
        replace (k + 2 + a + b + c + d + e + 1 - 1) with (k + (2 + a + b + c + d + e)) by lia
    end.
    unfold k. rewrite lookup_params_tail. unfold spec_tail_values.
    destruct (is_not_None (freq_sup r)), (truthy_list (book_names r)),
      (truthy_list (book_categories r)), (truthy_list (book_periods r)),
      (truthy_list (book_styles r)); reflexivity.
  - injection Hp as <-.
    match goal with
    | |- params r !! (k + 2 + ?a + ?b + ?c + ?d + ?e + 2 - 1) = _ =>
        replace (k + 2 + a + b + c + d + e + 2 - 1) with (k + (3 + a + b + c + d + e)) by lia
    end.
    unfold k. rewrite lookup_params_tail. unfold spec_tail_values.
    destruct (is_not_None (freq_sup r)), (truthy_list (book_names r)),
      (truthy_list (book_categories r)), (truthy_list (book_periods r)),
      (truthy_list (book_styles r)); reflexivity.
  - injection Hp as <-.
    match goal with
    | |- params r !! (k + 2 + ?a + ?b + ?c + ?d + ?e + 3 - 1) = _ =>
        replace (k + 2 + a + b + c + d + e + 3 - 1) with (k + (4 + a + b + c + d + e)) by lia
    end.
    unfold k. rewrite lookup_params_tail. unfold spec_tail_values.
    destruct (is_not_None (freq_sup r)), (truthy_list (book_names r)),
      (truthy_list (book_categories r)), (truthy_list (book_periods r)),
      (truthy_list (book_styles r)); reflexivity.
Qed.

Lemma clause_placeholders r :
  map placeholders (where_clauses r)
  = map (fun i => [i]) (seq 1 (length (where_clauses r))).
Proof. to_specimen r. check_all_tests. Qed.

Lemma positions_supplied r :
  [is_not_None (freq_sup_pos (pos r)); is_not_None (book_names_pos (pos r));
   is_not_None (categories_pos (pos r)); is_not_None (periods_pos (pos r));
   is_not_None (styles_pos (pos r))]
  = [is_not_None (freq_sup r); truthy_list (book_names r);
     truthy_list (book_categories r); truthy_list (book_periods r);
     truthy_list (book_styles r)].
Proof.
  rewrite pos_spec. cbn.
  destruct (is_not_None (freq_sup r)), (truthy_list (book_names r)),
    (truthy_list (book_categories r)), (truthy_list (book_periods r)),
    (truthy_list (book_styles r)); reflexivity.
Qed.

Lemma predicates_bound r j f v :
  spec_predicates r !! j = Some (f, v) ->
  where_clauses r !! j = Some (f (j + 1)) /\ params r !! j = Some v.
Proof.
  intros Hj. split.
  - unfold where_clauses. rewrite where_builder_spec. cbn [b_where_clauses].
    rewrite (numbered_lookup 1 _ j f v Hj). do 2 f_equal. lia.
  - rewrite lookup_params_head by (eapply lookup_lt_Some; exact Hj).
    rewrite list_lookup_fmap, Hj. reflexivity.
Qed.

Lemma field_eqb_eq f g : field_eqb f g = true -> f = g.
Proof. destruct f, g; first [reflexivity | discriminate]. Qed.

Lemma site_agrees_spec order s :
  site_agrees order s = true ->
  1 <= site_index s /\
  exists f, field_of s = Some f /\ order !! (site_index s - 1) = Some f.
Proof.
  unfold site_agrees. destruct (field_of s) as [f|]; [|discriminate].
  destruct (order !! (site_index s - 1)) as [g|]; [|discriminate].
  intros H. apply andb_true_iff in H as [Hi Hf].
  apply Nat.ltb_lt in Hi. apply field_eqb_eq in Hf as <-.
  split; [lia|]. now exists f.
Qed.

Lemma site_of_spec ss i :
  site_of ss i = true -> exists s, s ∈ ss /\ site_index s = i.
Proof.
  unfold site_of. intros H. apply existsb_exists in H as (s & Hin & Hi).
  apply Nat.eqb_eq in Hi. exists s. split; [|exact Hi].
  now apply list_elem_of_In.
Qed.

Lemma check_sites_spec order ss ps :
  check_sites order ss ps = true ->
  map site_index ss = ps /\
  (forall s, s ∈ ss ->
     1 <= site_index s /\
     exists f, field_of s = Some f /\ order !! (site_index s - 1) = Some f) /\
  (forall i, 1 <= i <= length order -> exists s, s ∈ ss /\ site_index s = i).
Proof.
  unfold check_sites. intros H.
  apply andb_true_iff in H as [H Hcover]. apply andb_true_iff in H as [Hagree Hps].
  split; [|split].
  - now apply (list_beq_eq Nat.eqb Nat.eqb_eq).
  - intros s Hs. apply site_agrees_spec.
    rewrite forallb_forall in Hagree. apply Hagree. now apply list_elem_of_In.
  - intros i Hi. apply site_of_spec.
    rewrite forallb_forall in Hcover. apply Hcover, in_seq. lia.
Qed.

Lemma like_predicate_value column o :
  map snd (like_predicate column o)
  = if truthy_str o then [VStr ("%" +:+ fmt_str o +:+ "%")] else [].
Proof. destruct o as [[|c s]|]; reflexivity. Qed.

Lemma member_predicate_value column o :
  map snd (member_predicate column o)
  = if truthy_list o then [list_value o] else [].
Proof. destruct o as [[|x l]|]; reflexivity. Qed.

(** The argument list is the values of the supplied fields in the fixed
    order. *)
Lemma params_fixed_order r : params r = map (value_of r) (fixed_order r).
Proof.
  rewrite params_spec. unfold spec_predicates, spec_tail_values, fixed_order.
  change all_fields
    with ([HeadText; DpdtText; HeadPos; DpdtPos; DepType]
          ++ [FreqInf; FreqSup; BookNames; BookCategories; BookPeriods; BookStyles;
              ExamplesLimit; ExamplesOffset; ResultsLimit; ResultsOffset]).
  rewrite List.filter_app, !map_app. f_equal.
  - rewrite !like_predicate_value, !member_predicate_value.
    cbn [List.filter supplied].
    destruct (truthy_str (head_text r)), (truthy_str (dpdt_text r)),
      (truthy_list (head_pos r)), (truthy_list (dpdt_pos r)), (truthy_list (dep_type r));
      reflexivity.
  - cbn [List.filter supplied].
    destruct (is_not_None (freq_sup r)), (truthy_list (book_names r)),
      (truthy_list (book_categories r)), (truthy_list (book_periods r)),
      (truthy_list (book_styles r)); reflexivity.
Qed.

Lemma fixed_order_text r r' : same_tests r r' -> fixed_order r = fixed_order r'.
Proof.
  intros H. tests_equations H. unfold fixed_order, all_fields.
  cbn [List.filter supplied].
  now rewrite Hht, Hdt, Hhp, Hdp, Hdy, Hfs, Hbn, Hbc, Hbp, Hbs.
Qed.

Lemma sites_checked r :
  check_sites (fixed_order r) (sites (query_template r))
              (placeholders (query_template r)) = true.
Proof.
  rewrite (fixed_order_text r _ (specimen_same_tests r)).
  to_specimen r. check_all_tests.
Qed.

Lemma sites_bound r :
  map site_index (sites (query_template r)) = placeholders (query_template r) /\
  (forall s, s ∈ sites (query_template r) ->
     1 <= site_index s /\
     exists f, field_of s = Some f /\
               fixed_order r !! (site_index s - 1) = Some f /\
               params r !! (site_index s - 1) = Some (value_of r f)) /\
  (forall i, 1 <= i <= length (params r) ->
     exists s, s ∈ sites (query_template r) /\ site_index s = i).
Proof.
  destruct (check_sites_spec _ _ _ (sites_checked r)) as (Hps & Hagree & Hcover).
  split; [exact Hps|]. split.
  - intros s Hs. destruct (Hagree s Hs) as (Hi & f & Hf & Ho).
    split; [exact Hi|]. exists f. split; [exact Hf|]. split; [exact Ho|].
    rewrite params_fixed_order, list_lookup_fmap, Ho. reflexivity.
  - intros i Hi. apply Hcover.
    rewrite params_fixed_order, length_map in Hi. exact Hi.
Qed.

(** C2: the indices are handed out in the fixed order (the WHERE
    predicates as appended, then minimum frequency, maximum frequency,
    book names, categories, periods, styles, each of the optional ones
    only if supplied, then the examples limit and offset, then the results
    limit and offset), they count up from 1, and the argument list holds
    the values of the supplied fields in that order. Read back from the
    query text: every placeholder stands at a place that names a field
    (the column it is compared with, or [LIMIT] or [OFFSET] inside or
    outside the subqueries), that field is the one the fixed order gives
    the placeholder's index, the argument bound at the index is the value
    of that field, and every index from 1 to the number of arguments has
    such a place. *)
Theorem C2_positions_mirror_arguments r :
  valid_request r ->
  where_positions r ++ assigned_positions r = seq 1 (length (params r)) /\
  map placeholders (where_clauses r)
    = map (fun i => [i]) (seq 1 (length (where_clauses r))) /\
  [is_not_None (freq_sup_pos (pos r)); is_not_None (book_names_pos (pos r));
   is_not_None (categories_pos (pos r)); is_not_None (periods_pos (pos r));
   is_not_None (styles_pos (pos r))]
    = [is_not_None (freq_sup r); truthy_list (book_names r);
       truthy_list (book_categories r); truthy_list (book_periods r);
       truthy_list (book_styles r)] /\
  params r = map snd (spec_predicates r) ++ spec_tail_values r /\
  (forall j f v, spec_predicates r !! j = Some (f, v) ->
                 where_clauses r !! j = Some (f (j + 1)) /\ params r !! j = Some v) /\
  (forall p v i, (p, v) ∈ denotations r -> p = Some i -> params r !! (i - 1) = Some v) /\
  params r = map (value_of r) (fixed_order r) /\
  map site_index (sites (query_template r)) = placeholders (query_template r) /\
  (forall s, s ∈ sites (query_template r) ->
     1 <= site_index s /\
     exists f, field_of s = Some f /\
               fixed_order r !! (site_index s - 1) = Some f /\
               params r !! (site_index s - 1) = Some (value_of r f)) /\
  (forall i, 1 <= i <= length (params r) ->
     exists s, s ∈ sites (query_template r) /\ site_index s = i).
Proof.
  intros _. split; [apply positions_consecutive|].
  split; [apply clause_placeholders|].
  split; [apply positions_supplied|].
  split; [apply params_spec|].
  split; [apply predicates_bound|].
  split; [apply denotations_bound|].
  split; [apply params_fixed_order|apply sites_bound].
Qed.

Lemma C2_positions_mirror_arguments_witness :
  valid_request sample_full /\
  where_positions sample_full ++ assigned_positions sample_full = seq 1 15 /\
  params sample_full !! 5 = Some (VInt 5) /\
  params sample_full !! 7 = Some (VList ["Shiji"]) /\
  (exists f, field_of (Site true "category =" 9) = Some f /\
             params sample_full !! 8 = Some (value_of sample_full f)).
Proof.
  assert (Hv : valid_request sample_full).
  { unfold valid_request; cbn; repeat split; lia. }
  destruct (C2_positions_mirror_arguments sample_full Hv)
    as (Ho & _ & _ & _ & _ & Hd & _ & _ & Hs & _).
  split; [exact Hv|]. split; [exact Ho|]. split; [|split].
  - apply (Hd (Some 6) (VInt 5) 6); [|reflexivity].
    vm_compute. apply list_elem_of_here.
  - apply (Hd (Some 8) (VList ["Shiji"]) 8); [|reflexivity].
    vm_compute. do 2 apply list_elem_of_further. apply list_elem_of_here.
  - destruct (Hs (Site true "category =" 9)) as (_ & f & Hf & _ & Hp).
    + vm_compute. apply list_elem_of_further. apply list_elem_of_here.
    + exists f. split; [exact Hf|exact Hp].
Defined.

(** *** C4 *)

Lemma like_predicate_length column o :
  length (like_predicate column o) = bit (truthy_str o).
Proof. destruct o as [[|c s]|]; reflexivity. Qed.

Lemma member_predicate_length column o :
  length (member_predicate column o) = bit (truthy_list o).
Proof. destruct o as [[|x l]|]; reflexivity. Qed.

Lemma where_clauses_spec r : where_clauses r = numbered 1 (spec_predicates r).
Proof. unfold where_clauses. now rewrite where_builder_spec. Qed.

Lemma where_clauses_length r :
  length (where_clauses r)
  = bit (truthy_str (head_text r)) + bit (truthy_str (dpdt_text r))
    + bit (truthy_list (head_pos r)) + bit (truthy_list (dpdt_pos r))
    + bit (truthy_list (dep_type r)).
Proof.
  rewrite where_clauses_spec, numbered_length. unfold spec_predicates.
  rewrite !length_app, !like_predicate_length, !member_predicate_length. lia.
Qed.

Lemma params_length r :
  length (params r)
  = length (where_clauses r) + 1 + bit (is_not_None (freq_sup r))
    + bit (truthy_list (book_names r)) + bit (truthy_list (book_categories r))
    + bit (truthy_list (book_periods r)) + bit (truthy_list (book_styles r)) + 4.
Proof.
  rewrite params_spec, where_clauses_spec, numbered_length, length_app, length_map.
  unfold spec_tail_values.
  destruct (is_not_None (freq_sup r)), (truthy_list (book_names r)),
    (truthy_list (book_categories r)), (truthy_list (book_periods r)),
    (truthy_list (book_styles r)); cbn; lia.
Qed.

Lemma where_section_words r :
  sql_words (where_section r)
  = sql_words (final_where_sql r)
    ++ ["AND"; "mv_token_collocations.frequency"; ">=";
        "$" +:+ str (freq_inf_pos (pos r))]
    ++ (if is_not_None (freq_sup r)
        then ["AND"; "mv_token_collocations.frequency"; "<=";
              "$" +:+ fmt_pos (freq_sup_pos (pos r))]
        else []).
Proof. to_specimen r. check_all_tests. Qed.

Lemma frequency_predicates r :
  occurrences "mv_token_collocations.frequency >= $" (query_template r) = 1 /\
  occurrences "mv_token_collocations.frequency <= $" (query_template r)
  = bit (is_not_None (freq_sup r)).
Proof. to_specimen r. check_all_tests. Qed.

(** C4: every supplied text filter gives one substring predicate with the
    pattern [%value%], every supplied set filter one membership predicate,
    nothing else enters the predicate list or the arguments bound for it,
    the predicates are joined with AND, the minimum-frequency predicate is
    always there and the maximum-frequency predicate exactly when
    [freq_sup] is supplied. *)
Theorem C4_predicate_assembly r :
  valid_request r ->
  where_clauses r = numbered 1 (spec_predicates r) /\
  take (length (where_clauses r)) (params r) = map snd (spec_predicates r) /\
  final_where_sql r = String.concat " AND " (where_clauses r) /\
  length (where_clauses r)
    = bit (truthy_str (head_text r)) + bit (truthy_str (dpdt_text r))
      + bit (truthy_list (head_pos r)) + bit (truthy_list (dpdt_pos r))
      + bit (truthy_list (dep_type r)) /\
  length (params r)
    = length (where_clauses r) + 1 + bit (is_not_None (freq_sup r))
      + bit (truthy_list (book_names r)) + bit (truthy_list (book_categories r))
      + bit (truthy_list (book_periods r)) + bit (truthy_list (book_styles r)) + 4 /\
  sql_words (where_section r)
    = sql_words (final_where_sql r)
      ++ ["AND"; "mv_token_collocations.frequency"; ">=";
          "$" +:+ str (freq_inf_pos (pos r))]
      ++ (if is_not_None (freq_sup r)
          then ["AND"; "mv_token_collocations.frequency"; "<=";
                "$" +:+ fmt_pos (freq_sup_pos (pos r))]
          else []) /\
  occurrences "mv_token_collocations.frequency >= $" (query_template r) = 1 /\
  occurrences "mv_token_collocations.frequency <= $" (query_template r)
    = bit (is_not_None (freq_sup r)).
Proof.
  intros _. split; [apply where_clauses_spec|].
  split.
  { rewrite params_spec. apply take_app_length'.
    now rewrite where_clauses_spec, numbered_length, length_map. }
  split; [reflexivity|].
  split; [apply where_clauses_length|].
  split; [apply params_length|].
  split; [apply where_section_words|].
  apply frequency_predicates.
Qed.

Lemma C4_predicate_assembly_witness :
  valid_request sample /\
  where_clauses sample = ["head_text LIKE $1"] /\
  take (length (where_clauses sample)) (params sample) = [VStr "%run%"] /\
  length (params sample) = 6 /\
  occurrences "mv_token_collocations.frequency <= $" (query_template sample) = 0.
Proof.
  assert (Hv : valid_request sample).
  { unfold valid_request; cbn; repeat split; lia. }
  destruct (C4_predicate_assembly sample Hv) as (Hc & Ht & _ & _ & Hl & _ & _ & Hs).
  split; [exact Hv|]. split; [exact Hc|]. split; [exact Ht|].
  split; [exact Hl|exact Hs].
Defined.

(** *** C3 *)

Lemma book_filter_occurrences r :
  any_book_filter r = true ->
  [occurrences (books_filter_inner_sql r) (example_fetch_sql r);
   occurrences (books_filter_inner_sql r) (total_matching_examples_count_sql r);
   occurrences (books_filter_inner_sql r) (query_template r)] = [1; 1; 2].
Proof. unfold any_book_filter. to_specimen r. check_all_tests. Qed.

Lemma book_filter_joins r :
  [occurrences "JOIN" (example_fetch_sql r);
   occurrences "JOIN" (total_matching_examples_count_sql r)]
  = [occurrences "JOIN" (books_filter_inner_sql r);
     occurrences "JOIN" (books_filter_inner_sql r)].
Proof. to_specimen r. check_all_tests. Qed.

Lemma no_book_filter r :
  any_book_filter r = false ->
  (books_filter_inner_sql r,
   [occurrences "JOIN" (query_template r); occurrences "books" (query_template r)])
  = (EmptyString, [0; 0]).
Proof. unfold any_book_filter. to_specimen r. check_all_tests. Qed.

Lemma book_denotations_bound r p v i :
  (p, v) ∈ [(book_names_pos (pos r), list_value (book_names r));
            (categories_pos (pos r), list_value (book_categories r));
            (periods_pos (pos r), list_value (book_periods r));
            (styles_pos (pos r), list_value (book_styles r))] ->
  p = Some i ->
  i ∈ book_positions r /\ params r !! (i - 1) = Some v.
Proof.
  intros Hin Hp. split.
  - unfold book_positions. apply list_elem_of_omap. exists p. split; [|exact Hp].
    apply (list_elem_of_fmap_2 fst) in Hin. exact Hin.
  - apply (denotations_bound r p v i); [|exact Hp].
    unfold denotations.
    repeat (apply elem_of_cons in Hin as [Hin|Hin]);
      [rewrite Hin .. | now apply elem_of_nil in Hin].
    + do 2 apply list_elem_of_further. apply list_elem_of_here.
    + do 3 apply list_elem_of_further. apply list_elem_of_here.
    + do 4 apply list_elem_of_further. apply list_elem_of_here.
    + do 5 apply list_elem_of_further. apply list_elem_of_here.
Qed.

(** C3: the book-filter fragment is one text; when a book filter is
    supplied that very text stands once in the limited-examples subquery
    and once in the example-count subquery (twice in the whole query), the
    subqueries join nothing besides it, its placeholders are the book
    positions in both, and the argument list holds the supplied book sets
    at those positions; when no book filter is supplied the fragment is
    empty and the query joins no table and does not mention [books]. *)
Theorem C3_book_filter_shared r :
  valid_request r ->
  (any_book_filter r = true ->
   [occurrences (books_filter_inner_sql r) (example_fetch_sql r);
    occurrences (books_filter_inner_sql r) (total_matching_examples_count_sql r);
    occurrences (books_filter_inner_sql r) (query_template r)] = [1; 1; 2]) /\
  [occurrences "JOIN" (example_fetch_sql r);
   occurrences "JOIN" (total_matching_examples_count_sql r)]
    = [occurrences "JOIN" (books_filter_inner_sql r);
       occurrences "JOIN" (books_filter_inner_sql r)] /\
  placeholders (books_filter_inner_sql r) = book_positions r /\
  placeholders (example_fetch_sql r)
    = book_positions r ++ [examples_limit_pos (pos r); examples_offset_pos (pos r)] /\
  placeholders (total_matching_examples_count_sql r) = book_positions r /\
  (forall p v i,
      (p, v) ∈ [(book_names_pos (pos r), list_value (book_names r));
                (categories_pos (pos r), list_value (book_categories r));
                (periods_pos (pos r), list_value (book_periods r));
                (styles_pos (pos r), list_value (book_styles r))] ->
      p = Some i ->
      i ∈ book_positions r /\ params r !! (i - 1) = Some v) /\
  (any_book_filter r = false ->
   (books_filter_inner_sql r,
    [occurrences "JOIN" (query_template r); occurrences "books" (query_template r)])
   = (EmptyString, [0; 0])).
Proof.
  intros _.
  split; [apply book_filter_occurrences|].
  split; [apply book_filter_joins|].
  split; [apply placeholders_books_filter_inner_sql|].
  split; [apply placeholders_example_fetch_sql|].
  split; [apply placeholders_total_matching_examples_count_sql|].
  split; [apply book_denotations_bound|apply no_book_filter].
Qed.

Lemma C3_book_filter_shared_witness :
  valid_request sample_books /\
  occurrences (books_filter_inner_sql sample_books) (query_template sample_books) = 2 /\
  placeholders (books_filter_inner_sql sample_books) = [3] /\
  params sample_books !! 2 = Some (VList ["Shiji"]).
Proof.
  assert (Hv : valid_request sample_books).
  { unfold valid_request; cbn; repeat split; lia. }
  destruct (C3_book_filter_shared sample_books Hv) as (Ho & _ & Hp & _ & _ & Hb & _).
  split; [exact Hv|]. split; [|split].
  - exact (f_equal (fun l => nth 2 l 0) (Ho eq_refl)).
  - exact Hp.
  - apply (Hb (Some 3) (VList ["Shiji"]) 3); [|reflexivity].
    vm_compute. apply list_elem_of_here.
Defined.

(** *** C5 *)




(** *** C8 *)

Lemma where_heads_checked r :
  has_text_filter r = true ->
  where_heads (query_template r)
  = (true, Some (if truthy_str (head_text r) then "head_text" else "dependent_text")).
Proof. to_specimen r. check_all_tests. Qed.

Lemma where_clauses_nonempty r :
  has_text_filter r = true -> where_clauses r <> [] /\ final_where_sql r <> EmptyString.
Proof. to_specimen r. check_all_tests. Qed.

(** Without a text filter and without any other filter the builder would
    write [WHERE] followed at once by [AND]. *)
Example dangling_without_filters :
  words_after "WHERE" (sql_words (query_template no_filters)) = ["AND"].
Proof. vm_compute. reflexivity. Qed.

(** C8: with a text filter supplied the predicate list is not empty, the
    joined WHERE clause is not empty, and no [WHERE] of the query text is
    followed by [AND] or by nothing; the outer [WHERE] is followed by the
    first text predicate. *)
Theorem C8_where_clause_well_formed r :
  valid_request r ->
  where_clauses r <> [] /\
  final_where_sql r <> EmptyString /\
  (forall w, w ∈ words_after "WHERE" (sql_words (query_template r)) ->
             w <> "AND" /\ w <> EmptyString) /\
  last (words_after "WHERE" (sql_words (query_template r)))
    = Some (if truthy_str (head_text r) then "head_text" else "dependent_text").
Proof.
  intros [Ht _].
  destruct (where_clauses_nonempty r Ht) as [Hc Hf].
  pose proof (where_heads_checked r Ht) as Hh.
  split; [exact Hc|]. split; [exact Hf|]. split; [|exact (f_equal snd Hh)].
  intros w Hw. pose proof (f_equal fst Hh) as Hall. cbn [fst where_heads] in Hall.
  rewrite forallb_forall in Hall. apply list_elem_of_In in Hw.
  specialize (Hall w Hw). apply andb_true_iff in Hall as [Ha He].
  apply negb_true_iff in Ha, He. split.
  - intros ->. discriminate Ha.
  - intros ->. discriminate He.
Qed.

Lemma C8_where_clause_well_formed_witness :
  valid_request sample_books /\
  where_clauses sample_books <> [] /\
  last (words_after "WHERE" (sql_words (query_template sample_books)))
    = Some "head_text".
Proof.
  assert (Hv : valid_request sample_books).
  { unfold valid_request; cbn; repeat split; lia. }
  destruct (C8_where_clause_well_formed sample_books Hv) as (Hc & _ & _ & Hl).
  split; [exact Hv|]. split; [exact Hc|exact Hl].
Defined.

(** *** C10 *)

Lemma with_examples_window_same_tests limit offset r :
  same_tests (with_examples_window limit offset r) r.
Proof. reflexivity. Qed.

Lemma example_window_placeholders r :
  [occ (examples_limit_pos (pos r)) (placeholders select_head);
   occ (examples_limit_pos (pos r)) (placeholders (example_fetch_sql r));
   occ (examples_limit_pos (pos r)) (placeholders (after_example_fetch r));
   occ (examples_offset_pos (pos r)) (placeholders select_head);
   occ (examples_offset_pos (pos r)) (placeholders (example_fetch_sql r));
   occ (examples_offset_pos (pos r)) (placeholders (after_example_fetch r))]
  = [0; 1; 0; 0; 1; 0].
Proof. to_specimen r. check_all_tests. Qed.

Lemma params_with_examples_window limit offset r :
  params (with_examples_window limit offset r)
  = <[examples_offset_pos (pos r) - 1 := VInt offset]>
      (<[examples_limit_pos (pos r) - 1 := VInt limit]> (params r)).
Proof.
  rewrite !params_spec, pos_spec.
  cbn [examples_limit_pos examples_offset_pos].
  change (spec_predicates (with_examples_window limit offset r))
    with (spec_predicates r).
  set (pre := map snd (spec_predicates r)).
  assert (Hk : length (spec_predicates r) = length pre)
    by (unfold pre; now rewrite length_map).
  rewrite Hk.
  match goal with
  | |- context [length pre + 2 + ?a + ?b + ?c + ?d + ?e + 1 - 1] =>
      replace (length pre + 2 + a + b + c + d + e + 1 - 1)
        with (length pre + (2 + a + b + c + d + e)) by lia;
      replace (length pre + 2 + a + b + c + d + e - 1)
        with (length pre + (1 + a + b + c + d + e)) by lia
  end.
  rewrite !insert_app_r. f_equal.
  unfold spec_tail_values, with_examples_window; cbn.
  destruct (is_not_None (freq_sup r)), (truthy_list (book_names r)),
    (truthy_list (book_categories r)), (truthy_list (book_periods r)),
    (truthy_list (book_styles r)); reflexivity.
Qed.

(** C10: another window over the examples leaves the query text, the
    WHERE predicates and every position as they are and changes the
    argument list at the two example-pagination positions only; the two
    example-pagination placeholders stand once in the limited-examples
    subquery and nowhere before or after it in the query text. *)
Theorem C10_example_window_frame r limit offset :
  valid_request r -> (0 < limit)%Z -> (0 <= offset)%Z ->
  let r' := with_examples_window limit offset r in
  query_template r' = query_template r /\
  where_clauses r' = where_clauses r /\
  pos r' = pos r /\
  params r' = <[examples_offset_pos (pos r) - 1 := VInt offset]>
                (<[examples_limit_pos (pos r) - 1 := VInt limit]> (params r)) /\
  (forall i, i <> examples_limit_pos (pos r) - 1 ->
             i <> examples_offset_pos (pos r) - 1 ->
             params r' !! i = params r !! i) /\
  query_template r = select_head +:+ example_fetch_sql r +:+ after_example_fetch r /\
  [occ (examples_limit_pos (pos r)) (placeholders select_head);
   occ (examples_limit_pos (pos r)) (placeholders (example_fetch_sql r));
   occ (examples_limit_pos (pos r)) (placeholders (after_example_fetch r));
   occ (examples_offset_pos (pos r)) (placeholders select_head);
   occ (examples_offset_pos (pos r)) (placeholders (example_fetch_sql r));
   occ (examples_offset_pos (pos r)) (placeholders (after_example_fetch r))]
    = [0; 1; 0; 0; 1; 0].
Proof.
  intros _ _ _ r'. subst r'.
  pose proof (with_examples_window_same_tests limit offset r) as Hs.
  split; [exact (query_template_text _ _ Hs)|].
  split; [exact (where_clauses_text _ _ Hs)|].
  split; [exact (pos_text _ _ Hs)|].
  split; [apply params_with_examples_window|].
  split.
  { intros i Hl Ho. rewrite params_with_examples_window.
    rewrite list_lookup_insert_ne by (intros E; apply Ho; now rewrite E).
    rewrite list_lookup_insert_ne by (intros E; apply Hl; now rewrite E).
    reflexivity. }
  split; [reflexivity|apply example_window_placeholders].
Qed.

Lemma C10_example_window_frame_witness :
  valid_request sample_books /\ (0 < 20)%Z /\ (0 <= 40)%Z /\
  query_template (with_examples_window 20 40 sample_books) = query_template sample_books /\
  params (with_examples_window 20 40 sample_books)
  = [VStr "%run%"; VInt 5; VList ["Shiji"]; VInt 20; VInt 40; VInt 2; VInt 0].
Proof.
  assert (Hv : valid_request sample_books).
  { unfold valid_request; cbn; repeat split; lia. }
  assert (Hl : (0 < 20)%Z) by lia.
  assert (Ho : (0 <= 40)%Z) by lia.
  destruct (C10_example_window_frame sample_books 20 40 Hv Hl Ho) as (Hq & _ & _ & Hp & _).
  split; [exact Hv|]. split; [exact Hl|]. split; [exact Ho|].
  split; [exact Hq|exact Hp].
Defined.

(** *** C6 *)

Lemma pop_total_lookup (row : gmap string value) :
  pop_total row !! "total_collocations_count" = None /\
  (forall k, k <> "total_collocations_count" -> pop_total row !! k = row !! k).
Proof.
  unfold pop_total. split.
  - apply lookup_delete_eq.
  - intros k Hk. apply lookup_delete_ne. congruence.
Qed.

(** A first row without the column makes the lookup raise. *)
Example shape_result_missing_column :
  shape_result [ {[ "head_text" := VStr "run" ]} ]
  = inl (KeyError "total_collocations_count").
Proof. reflexivity. Qed.

(** C6: on the rows of a query execution (the first row, if any, carries
    the column) the shaper returns the total read from the first row, or
    zero when there is no row, together with the rows in the order of the
    store, each without the [total_collocations_count] field and otherwise
    unchanged. *)
Theorem C6_result_shaping (rows : list (gmap string value)) :
  (forall first, head rows = Some first ->
                 is_Some (first !! "total_collocations_count")) ->
  exists resp,
    shape_result rows = inr resp /\
    (rows = [] -> total_collocations_count resp = VInt 0) /\
    (forall first, head rows = Some first ->
                   first !! "total_collocations_count"
                   = Some (total_collocations_count resp)) /\
    results resp = delete "total_collocations_count" <$> rows /\
    (forall i out, results resp !! i = Some out ->
       out !! "total_collocations_count" = None /\
       exists row, rows !! i = Some row /\
         forall k, k <> "total_collocations_count" -> out !! k = row !! k).
Proof.
  intros Hfirst. unfold shape_result.
  assert (Hrows : forall total : value,
    forall i out,
      results (Response total (pop_total <$> rows)) !! i = Some out ->
      out !! "total_collocations_count" = None /\
      exists row, rows !! i = Some row /\
        forall k, k <> "total_collocations_count" -> out !! k = row !! k).
  { intros total i out. cbn [results]. rewrite list_lookup_fmap.
    destruct (rows !! i) as [row|] eqn:Hi; [|discriminate].
    cbn. intros [= <-]. destruct (pop_total_lookup row) as [Hnone Hrest].
    split; [exact Hnone|]. exists row. split; [reflexivity|exact Hrest]. }
  destruct rows as [|first rest].
  - exists (Response (VInt 0) []). cbn.
    split; [reflexivity|]. split; [reflexivity|].
    split; [intros first [=]|]. split; [reflexivity|].
    intros i out Hi. destruct i; discriminate Hi.
  - destruct (Hfirst first eq_refl) as [v Hv].
    exists (Response v (pop_total <$> first :: rest)).
    cbn [first_total]. rewrite Hv.
    split; [reflexivity|]. split; [intros [=]|].
    split; [intros first' [= <-]; exact Hv|].
    split; [reflexivity|apply Hrows].
Qed.

Lemma C6_result_shaping_witness :
  (forall first, head sample_rows = Some first ->
                 is_Some (first !! "total_collocations_count")) /\
  exists resp,
    shape_result sample_rows = inr resp /\
    total_collocations_count resp = VInt 3 /\
    results resp = delete "total_collocations_count" <$> sample_rows.
Proof.
  assert (H : forall first, head sample_rows = Some first ->
                            is_Some (first !! "total_collocations_count")).
  { intros first [= <-]. exists (VInt 3). reflexivity. }
  split; [exact H|].
  destruct (C6_result_shaping sample_rows H) as (resp & Hs & _ & Ht & Hr & _).
  exists resp. split; [exact Hs|]. split; [|exact Hr].
  assert (E : Some (VInt 3) = Some (total_collocations_count resp))
    by exact (Ht _ eq_refl).
  injection E as <-. reflexivity.
Defined.

(** *** C7 *)

(** C7: without a usable head text and dependent text the operation ends
    with HTTP 400 and an empty trace: no connection is asked for and no
    query is sent. *)
Theorem C7_rejected_before_store (st : store) r :
  has_text_filter r = false ->
  search_dependencies st r
  = ([], inl (HTTPException 400
                "At least one of 'head_text' or 'dpdt_text' must be provided.")).
Proof.
  unfold has_text_filter, search_dependencies. intros H.
  apply orb_false_iff in H as [-> ->]. reflexivity.
Qed.

Lemma C7_rejected_before_store_witness :
  has_text_filter no_text = false /\
  search_dependencies empty_store no_text
  = ([], inl (HTTPException 400
                "At least one of 'head_text' or 'dpdt_text' must be provided.")).
Proof.
  split; [reflexivity|].
  apply (C7_rejected_before_store empty_store no_text). reflexivity.
Defined.

(** *** C9 *)

(** C9, as stated, fails: when [fetch] raises a [PostgresError] the
    detail text of the database error is part of what the caller gets,
    and the message is not the generic one. *)
Lemma C9_database_detail_reaches_caller :
  fetch (failing_store duplicate_key) (query_template sample) (params sample)
    = inl duplicate_key /\
  snd (search_dependencies (failing_store duplicate_key) sample)
    = inl (HTTPException 500 "Database error: Key (id)=(7) already exists.") /\
  occurrences "Key (id)=(7) already exists."
              "Database error: Key (id)=(7) already exists." = 1 /\
  snd (search_dependencies (failing_store duplicate_key) sample)
    <> inl (HTTPException 500 "Internal Server Error").
Proof.
  split; [reflexivity|]. split; [vm_compute; reflexivity|].
  split; [vm_compute; reflexivity|]. vm_compute. discriminate.
Qed.

(** C9, amended: a failing [fetch] always ends in HTTP 500 and the text
    of the error is written to the log at error level, after the
    connection is released; for a [PostgresError] the caller's detail is
    [Database error: ] followed by the detail of the error (its message
    when the detail is empty or missing), and only for any other exception
    it is the generic [Internal Server Error]. *)
Theorem C9_store_failure_surfaced (st : store) r e :
  has_text_filter r = true ->
  acquire_failure st = None ->
  fetch st (query_template r) (params r) = inl e ->
  search_dependencies st r =
  ([Acquire;
    Log INFO ("Executing query with params: " +:+ repr st (params r));
    Fetch (query_template r) (params r);
    Release;
    Log ERROR (match e with
               | PostgresError _ _ text => "Database error: " +:+ text
               | OtherException text => "An unexpected error occurred: " +:+ text
               end)],
   inl (HTTPException 500
          (match e with
           | PostgresError detail message _ =>
               "Database error: " +:+ fmt_str (py_or detail message)
           | OtherException _ => "Internal Server Error"
           end))).
Proof.
  intros Ht Ha Hf. unfold search_dependencies.
  unfold has_text_filter in Ht.
  replace (negb (truthy_str (head_text r)) && negb (truthy_str (dpdt_text r)))
    with false
    by (destruct (truthy_str (head_text r)), (truthy_str (dpdt_text r));
        cbn in *; congruence).
  unfold with_connection, run_query, build_query. rewrite Ha.
  cbv [mbind io_bind emit]. rewrite Hf.
  destruct e as [detail message text|text]; reflexivity.
Qed.

Lemma C9_store_failure_surfaced_witness :
  has_text_filter sample = true /\
  acquire_failure (failing_store duplicate_key) = None /\
  fetch (failing_store duplicate_key) (query_template sample) (params sample)
    = inl duplicate_key /\
  snd (search_dependencies (failing_store duplicate_key) sample)
    = inl (HTTPException 500 "Database error: Key (id)=(7) already exists.") /\
  last (fst (search_dependencies (failing_store duplicate_key) sample))
    = Some (Log ERROR "Database error: duplicate key value violates unique constraint").
Proof.
  split; [reflexivity|]. split; [reflexivity|]. split; [reflexivity|].
  rewrite (C9_store_failure_surfaced (failing_store duplicate_key) sample duplicate_key);
    [split; reflexivity|reflexivity..].
Defined.

(** * Further properties of the code *)

(** ** The builder *)

(** X1: no value of a request reaches the query text: two requests that
    supply the same filters get the same text, the same positions and
    argument lists of the same length. *)
Theorem query_text_ignores_values r r' :
  same_tests r r' ->
  query_template r = query_template r' /\
  pos r = pos r' /\
  length (params r) = length (params r').
Proof.
  intros H. split; [exact (query_template_text r r' H)|].
  split; [exact (pos_text r r' H)|exact (length_params_text r r' H)].
Qed.

Lemma query_text_ignores_values_witness :
  same_tests sample_books
    (Request (Some "x'; DROP TABLE books; --") None None None None 1 None 8 3 5 0
             (Some ["Hanshu"; "Zuozhuan"]) None None None) /\
  query_template sample_books
  = query_template
      (Request (Some "x'; DROP TABLE books; --") None None None None 1 None 8 3 5 0
               (Some ["Hanshu"; "Zuozhuan"]) None None None).
Proof.
  split; [reflexivity|].
  apply (query_text_ignores_values sample_books). reflexivity.
Defined.

Lemma absent_if_empty_str_truthy o : truthy_str (absent_if_empty_str o) = truthy_str o.
Proof. destruct o as [[|c s]|]; reflexivity. Qed.

Lemma absent_if_empty_list_truthy o :
  truthy_list (absent_if_empty_list o) = truthy_list o.
Proof. destruct o as [[|x l]|]; reflexivity. Qed.

Lemma normalize_same_tests r : same_tests (normalize r) r.
Proof.
  unfold same_tests, tests_of, normalize; cbn.
  now rewrite !absent_if_empty_str_truthy, !absent_if_empty_list_truthy.
Qed.

Lemma normalize_params r : params (normalize r) = params r.
Proof.
  rewrite !params_spec. f_equal.
  - unfold spec_predicates, normalize; cbn.
    destruct (head_text r) as [[|? ?]|], (dpdt_text r) as [[|? ?]|],
      (head_pos r) as [[|? ?]|], (dpdt_pos r) as [[|? ?]|],
      (dep_type r) as [[|? ?]|]; reflexivity.
  - unfold spec_tail_values, normalize; cbn.
    destruct (book_names r) as [[|? ?]|], (book_categories r) as [[|? ?]|],
      (book_periods r) as [[|? ?]|], (book_styles r) as [[|? ?]|]; reflexivity.
Qed.

(** X2: an empty string and an empty list count as no filter at all: the
    request with them left out gets the same query text, the same
    arguments and, on every store, the same outcome of the search. *)
Theorem empty_filters_are_absent r :
  build_query (normalize r) = build_query r /\
  forall st, search_dependencies st (normalize r) = search_dependencies st r.
Proof.
  assert (Hb : build_query (normalize r) = build_query r).
  { unfold build_query.
    now rewrite (query_template_text _ _ (normalize_same_tests r)), normalize_params. }
  split; [exact Hb|]. intros st.
  unfold search_dependencies, run_query. rewrite Hb.
  change (head_text (normalize r)) with (absent_if_empty_str (head_text r)).
  change (dpdt_text (normalize r)) with (absent_if_empty_str (dpdt_text r)).
  now rewrite !absent_if_empty_str_truthy.
Qed.

(** An empty head text next to a dependent text: the only predicate is
    the one on the dependent text. *)
Example empty_head_text_ignored :
  where_clauses sample_empty_head = ["dependent_text LIKE $1"] /\
  params sample_empty_head = [VStr "%fast%"; VInt 5; VInt 5; VInt 0; VInt 2; VInt 0].
Proof. split; reflexivity. Qed.

Lemma bit_bound b : bit b <= 1.
Proof. destruct b; cbn; lia. Qed.

(** X3: the argument list has between 5 and 15 entries, at least 6 once
    the request passed the validation, and the counter ends one past
    their number. *)
Theorem params_bounds r :
  5 <= length (params r) <= 15 /\
  (has_text_filter r = true -> 6 <= length (params r)) /\
  param_counter r = length (params r) + 1.
Proof.
  rewrite param_counter_params, params_length, where_clauses_length.
  pose proof (bit_bound (truthy_str (head_text r))).
  pose proof (bit_bound (truthy_str (dpdt_text r))).
  pose proof (bit_bound (truthy_list (head_pos r))).
  pose proof (bit_bound (truthy_list (dpdt_pos r))).
  pose proof (bit_bound (truthy_list (dep_type r))).
  pose proof (bit_bound (is_not_None (freq_sup r))).
  pose proof (bit_bound (truthy_list (book_names r))).
  pose proof (bit_bound (truthy_list (book_categories r))).
  pose proof (bit_bound (truthy_list (book_periods r))).
  pose proof (bit_bound (truthy_list (book_styles r))).
  split; [lia|]. split; [|lia].
  unfold has_text_filter. intros Ht.
  assert (1 <= bit (truthy_str (head_text r)) + bit (truthy_str (dpdt_text r))).
  { destruct (truthy_str (head_text r)), (truthy_str (dpdt_text r));
      try discriminate Ht; cbn; lia. }
  lia.
Qed.

(** *** The book filters stay out of the outer WHERE *)

Lemma book_positions_outside_where r :
  forallb (fun i => Nat.eqb (occ i (placeholders (where_section r))) 0)
          (book_positions r) = true.
Proof. to_specimen r. check_all_tests. Qed.

Lemma where_section_with_book_filters bn bc bp bs r :
  where_section (with_book_filters bn bc bp bs r) = where_section r.
Proof.
  unfold where_section. rewrite !pos_spec.
  reflexivity.
Qed.

(** X4: the book filters act on the examples only: whatever book filters
    a request carries, the WHERE predicates, the text of the outer WHERE
    clause and the arguments bound for it (predicates and frequency
    bounds) are the same, and no placeholder of a book filter occurs in
    that clause. *)
Theorem book_filters_leave_where r names categories periods styles :
  let r' := with_book_filters names categories periods styles r in
  let n := length (where_clauses r) + 1 + bit (is_not_None (freq_sup r)) in
  where_clauses r' = where_clauses r /\
  where_section r' = where_section r /\
  take n (params r') = take n (params r) /\
  (forall i, i ∈ book_positions r' -> occ i (placeholders (where_section r')) = 0).
Proof.
  intros r' n. subst r' n.
  split; [reflexivity|].
  split; [apply where_section_with_book_filters|].
  split.
  - rewrite !params_spec, where_clauses_spec, numbered_length.
    change (spec_predicates (with_book_filters names categories periods styles r))
      with (spec_predicates r).
    rewrite <- Nat.add_assoc.
    rewrite !take_app_add' by (now rewrite length_map).
    f_equal. unfold spec_tail_values; cbn.
    destruct (is_not_None (freq_sup r)); reflexivity.
  - intros i Hi.
    pose proof (book_positions_outside_where
                  (with_book_filters names categories periods styles r)) as Hall.
    rewrite forallb_forall in Hall. apply Nat.eqb_eq, Hall, list_elem_of_In, Hi.
Qed.

(** *** The window over the collocations *)

Lemma results_window_placeholders r :
  (placeholders (limit_section r),
   [occ (results_limit_pos (pos r)) (text_order r);
    occ (results_offset_pos (pos r)) (text_order r);
    occ (results_limit_pos (pos r)) (placeholders (example_fetch_sql r));
    occ (results_offset_pos (pos r)) (placeholders (example_fetch_sql r));
    occ (results_limit_pos (pos r)) (placeholders (total_matching_examples_count_sql r));
    occ (results_offset_pos (pos r)) (placeholders (total_matching_examples_count_sql r))])
  = ([results_limit_pos (pos r); results_offset_pos (pos r)], [1; 1; 0; 0; 0; 0]).
Proof. to_specimen r. check_all_tests. Qed.

Lemma params_with_results_window limit offset r :
  params (with_results_window limit offset r)
  = <[results_offset_pos (pos r) - 1 := VInt offset]>
      (<[results_limit_pos (pos r) - 1 := VInt limit]> (params r)).
Proof.
  rewrite !params_spec, pos_spec.
  cbn [results_limit_pos results_offset_pos].
  change (spec_predicates (with_results_window limit offset r))
    with (spec_predicates r).
  set (pre := map snd (spec_predicates r)).
  assert (Hk : length (spec_predicates r) = length pre)
    by (unfold pre; now rewrite length_map).
  rewrite Hk.
  match goal with
  | |- context [length pre + 2 + ?a + ?b + ?c + ?d + ?e + 3 - 1] =>
      replace (length pre + 2 + a + b + c + d + e + 3 - 1)
        with (length pre + (4 + a + b + c + d + e)) by lia;
      replace (length pre + 2 + a + b + c + d + e + 2 - 1)
        with (length pre + (3 + a + b + c + d + e)) by lia
  end.
  rewrite !insert_app_r. f_equal.
  unfold spec_tail_values, with_results_window; cbn.
  destruct (is_not_None (freq_sup r)), (truthy_list (book_names r)),
    (truthy_list (book_categories r)), (truthy_list (book_periods r)),
    (truthy_list (book_styles r)); reflexivity.
Qed.

(** X5: another window over the collocations leaves the query text as it
    is and changes the argument list at the two result-pagination
    positions only; their placeholders are the two of the closing
    LIMIT/OFFSET, each occurs once in the query text and neither occurs in
    an example subquery. *)
Theorem results_window_frame r limit offset :
  let r' := with_results_window limit offset r in
  query_template r' = query_template r /\
  params r' = <[results_offset_pos (pos r) - 1 := VInt offset]>
                (<[results_limit_pos (pos r) - 1 := VInt limit]> (params r)) /\
  (forall i, i <> results_limit_pos (pos r) - 1 ->
             i <> results_offset_pos (pos r) - 1 ->
             params r' !! i = params r !! i) /\
  placeholders (limit_section r)
    = [results_limit_pos (pos r); results_offset_pos (pos r)] /\
  [occ (results_limit_pos (pos r)) (placeholders (query_template r));
   occ (results_offset_pos (pos r)) (placeholders (query_template r));
   occ (results_limit_pos (pos r)) (placeholders (example_fetch_sql r));
   occ (results_offset_pos (pos r)) (placeholders (example_fetch_sql r));
   occ (results_limit_pos (pos r)) (placeholders (total_matching_examples_count_sql r));
   occ (results_offset_pos (pos r)) (placeholders (total_matching_examples_count_sql r))]
    = [1; 1; 0; 0; 0; 0].
Proof.
  intros r'. subst r'.
  assert (Hs : same_tests (with_results_window limit offset r) r) by reflexivity.
  pose proof (results_window_placeholders r) as Hp.
  split; [exact (query_template_text _ _ Hs)|].
  split; [apply params_with_results_window|].
  split.
  { intros i Hl Ho. rewrite params_with_results_window.
    rewrite list_lookup_insert_ne by (intros E; apply Ho; now rewrite E).
    rewrite list_lookup_insert_ne by (intros E; apply Hl; now rewrite E).
    reflexivity. }
  split; [exact (f_equal fst Hp)|].
  rewrite placeholders_query_template. exact (f_equal snd Hp).
Qed.

(** ** The search operation, path by path *)

Lemma search_runs_query (st : store) r :
  has_text_filter r = true ->
  search_dependencies st r =
  match with_connection st (run_query st r) with
  | (tr, inr resp) => (tr, inr resp)
  | (tr, inl (PostgresError detail message text)) =>
      (tr ++ [Log ERROR ("Database error: " +:+ text)],
       inl (HTTPException 500 ("Database error: " +:+ fmt_str (py_or detail message))))
  | (tr, inl (OtherException text)) =>
      (tr ++ [Log ERROR ("An unexpected error occurred: " +:+ text)],
       inl (HTTPException 500 "Internal Server Error"))
  end.
Proof.
  unfold has_text_filter, search_dependencies. intros Ht.
  destruct (truthy_str (head_text r)), (truthy_str (dpdt_text r));
    try discriminate Ht; reflexivity.
Qed.

Lemma held_query (st : store) r :
  acquire_failure st = None ->
  with_connection st (run_query st r) =
  (Acquire :: held_events st r,
   match fetch st (query_template r) (params r) with
   | inl e => inl e
   | inr rows => shape_result rows
   end).
Proof.
  intros Ha. unfold with_connection, run_query, build_query, held_events.
  rewrite Ha. cbv [mbind io_bind emit].
  destruct (fetch st (query_template r) (params r)) as [e|rows]; [reflexivity|].
  destruct (shape_result rows); reflexivity.
Qed.

(** X6: when the pool hands out no connection the search ends in HTTP 500
    after the one attempt; no query is sent and nothing is released. *)
Theorem search_acquire_failure (st : store) r e :
  has_text_filter r = true ->
  acquire_failure st = Some e ->
  search_dependencies st r =
  ([Acquire;
    Log ERROR (match e with
               | PostgresError _ _ text => "Database error: " +:+ text
               | OtherException text => "An unexpected error occurred: " +:+ text
               end)],
   inl (HTTPException 500
          (match e with
           | PostgresError detail message _ =>
               "Database error: " +:+ fmt_str (py_or detail message)
           | OtherException _ => "Internal Server Error"
           end))).
Proof.
  intros Ht Ha. rewrite (search_runs_query st r Ht).
  unfold with_connection. rewrite Ha. destruct e; reflexivity.
Qed.

Lemma search_acquire_failure_witness :
  has_text_filter sample = true /\
  acquire_failure exhausted_store = Some (OtherException "pool is closed") /\
  search_dependencies exhausted_store sample =
  ([Acquire; Log ERROR "An unexpected error occurred: pool is closed"],
   inl (HTTPException 500 "Internal Server Error")).
Proof.
  split; [reflexivity|]. split; [reflexivity|].
  apply (search_acquire_failure exhausted_store sample (OtherException "pool is closed"));
    reflexivity.
Defined.

(** X7: when the query succeeds the search sends exactly the built text
    with the built arguments, releases the connection, logs no error and
    answers with the total of the first row (zero for no row) and the rows
    in order without the [total_collocations_count] field. *)
Theorem search_success (st : store) r rows total :
  has_text_filter r = true ->
  acquire_failure st = None ->
  fetch st (query_template r) (params r) = inr rows ->
  match rows with
  | [] => total = VInt 0
  | first :: _ => first !! "total_collocations_count" = Some total
  end ->
  search_dependencies st r =
  (Acquire :: held_events st r,
   inr (Response total (delete "total_collocations_count" <$> rows))).
Proof.
  intros Ht Ha Hf Htotal.
  rewrite (search_runs_query st r Ht), (held_query st r Ha), Hf.
  unfold shape_result, first_total.
  destruct rows as [|first rest]; [now subst total|].
  rewrite Htotal. reflexivity.
Qed.

Lemma search_success_witness :
  has_text_filter sample = true /\
  snd (search_dependencies (answering_store sample_rows) sample)
  = inr (Response (VInt 3) (delete "total_collocations_count" <$> sample_rows)).
Proof.
  split; [reflexivity|].
  rewrite (search_success (answering_store sample_rows) sample sample_rows (VInt 3));
    reflexivity.
Defined.

(** X8: when the first row returned has no [total_collocations_count]
    the lookup fails inside the [try]: the connection is released, the
    failure is logged and the caller gets the generic HTTP 500. *)
Theorem search_missing_total_column (st : store) r first rest :
  has_text_filter r = true ->
  acquire_failure st = None ->
  fetch st (query_template r) (params r) = inr (first :: rest) ->
  first !! "total_collocations_count" = None ->
  search_dependencies st r =
  (Acquire :: held_events st r
     ++ [Log ERROR "An unexpected error occurred: 'total_collocations_count'"],
   inl (HTTPException 500 "Internal Server Error")).
Proof.
  intros Ht Ha Hf Hnone.
  rewrite (search_runs_query st r Ht), (held_query st r Ha), Hf.
  unfold shape_result, first_total. rewrite Hnone. reflexivity.
Qed.

Lemma search_missing_total_column_witness :
  has_text_filter sample = true /\
  snd (search_dependencies
         (answering_store [ {[ "head_text" := VStr "run" ]} ]) sample)
  = inl (HTTPException 500 "Internal Server Error").
Proof.
  split; [reflexivity|].
  rewrite (search_missing_total_column
             (answering_store [ {[ "head_text" := VStr "run" ]} ]) sample
             {[ "head_text" := VStr "run" ]} []);
    reflexivity.
Defined.

(** *** When an await can be cancelled *)

Lemma async_search_runs_query (st : async_store) r :
  has_text_filter r = true ->
  async_search_dependencies st r =
  match async_with_connection st (async_run_query st r) with
  | (tr, inr resp) => (tr, Returns resp)
  | (tr, inl (AnException (PostgresError detail message text))) =>
      (tr ++ [Log ERROR ("Database error: " +:+ text)],
       Raises (HTTPException 500 ("Database error: " +:+ fmt_str (py_or detail message))))
  | (tr, inl (AnException (OtherException text))) =>
      (tr ++ [Log ERROR ("An unexpected error occurred: " +:+ text)],
       Raises (HTTPException 500 "Internal Server Error"))
  | (tr, inl (ABaseException name)) => (tr, Propagates name)
  end.
Proof.
  unfold has_text_filter, async_search_dependencies. intros Ht.
  destruct (truthy_str (head_text r)), (truthy_str (dpdt_text r));
    try discriminate Ht; reflexivity.
Qed.

Lemma async_held_query (st : async_store) r :
  async_acquire_failure st = None ->
  async_with_connection st (async_run_query st r) =
  (Acquire :: async_held_events st r,
   match async_fetch st (query_template r) (params r) with
   | inl e => inl e
   | inr rows => as_raised (shape_result rows)
   end).
Proof.
  intros Ha. unfold async_with_connection, async_run_query, build_query, async_held_events.
  rewrite Ha. cbv [mbind async_bind].
  destruct (async_fetch st (query_template r) (params r)) as [e|rows]; [reflexivity|].
  destruct (shape_result rows); reflexivity.
Qed.

Lemma async_with_connection_raised (st : async_store) r :
  async_with_connection st (async_run_query st r) =
  (Acquire :: (if is_not_None (async_acquire_failure st) then []
               else async_held_events st r),
   match raised_in_try st r with
   | Some e => inl e
   | None =>
       match async_fetch st (query_template r) (params r) with
       | inr rows => as_raised (shape_result rows)
       | inl e => inl e
       end
   end).
Proof.
  unfold raised_in_try.
  destruct (async_acquire_failure st) as [e|] eqn:Ha.
  - unfold async_with_connection. rewrite Ha. reflexivity.
  - rewrite (async_held_query st r Ha). cbn [is_not_None]. f_equal.
    destruct (async_fetch st (query_template r) (params r)) as [e|rows]; [reflexivity|].
    destruct (shape_result rows); reflexivity.
Qed.

(** With a store that raises nothing but [Exception]s this is the search
    described before. *)
Lemma async_search_uninterrupted (st : store) r :
  async_search_dependencies (uninterrupted st) r
  = (fst (search_dependencies st r), as_outcome (snd (search_dependencies st r))).
Proof.
  unfold async_search_dependencies, search_dependencies.
  destruct (negb (truthy_str (head_text r)) && negb (truthy_str (dpdt_text r)));
    [reflexivity|].
  unfold async_with_connection, with_connection, uninterrupted; cbn.
  destruct (acquire_failure st) as [[d m text|text]|]; cbn; try reflexivity.
  unfold async_run_query, run_query, build_query.
  cbv [mbind async_bind io_bind emit]; cbn.
  destruct (fetch st (query_template r) (params r)) as [[d m text|text]|rows];
    cbn; try reflexivity.
  destruct (shape_result rows) as [[d m text|text]|resp]; reflexivity.
Qed.

(** X9: whatever the store does, also when it raises a [BaseException]
    that no handler catches, a search with a text filter asks for one
    connection first; if it gets one it logs the arguments, sends the one
    built query and releases the connection, in that order; after that
    comes at most one error line, and it comes exactly when the search
    ends in an [HTTPException]: none when it returns, and none when a
    [BaseException] passes through. *)
Theorem search_trace_shape (st : async_store) r :
  has_text_filter r = true ->
  exists tail,
    fst (async_search_dependencies st r)
    = Acquire :: (if is_not_None (async_acquire_failure st) then []
                  else async_held_events st r)
      ++ tail /\
    match snd (async_search_dependencies st r) with
    | Raises _ => exists msg, tail = [Log ERROR msg]
    | Returns _ | Propagates _ => tail = []
    end.
Proof.
  intros Ht. rewrite (async_search_runs_query st r Ht).
  destruct (async_acquire_failure st) as [e|] eqn:Ha.
  - unfold async_with_connection. rewrite Ha. cbn [is_not_None].
    destruct e as [[d m text|text]|name]; eexists;
      (split; [reflexivity|]); cbn; eauto.
  - rewrite (async_held_query st r Ha). cbn [is_not_None].
    destruct (async_fetch st (query_template r) (params r)) as [e|rows].
    + destruct e as [[d m text|text]|name];
        first [ exists []; split; [now rewrite app_nil_r|reflexivity]
              | eexists; (split; [reflexivity|]); cbn; eauto ].
    + destruct (shape_result rows) as [e|resp]; cbn [as_raised].
      * destruct e as [d m text|text]; eexists; (split; [reflexivity|]); cbn; eauto.
      * exists []. split; [now rewrite app_nil_r|reflexivity].
Qed.

Lemma search_trace_shape_witness :
  has_text_filter sample = true /\
  exists tail,
    fst (async_search_dependencies cancelled_store sample)
    = Acquire :: async_held_events cancelled_store sample ++ tail /\
    tail = [].
Proof.
  split; [reflexivity|].
  destruct (search_trace_shape cancelled_store sample eq_refl)
    as (tail & Htr & Htail).
  exists tail. split; [exact Htr|exact Htail].
Defined.

(** X10: how a search ends is decided by the validation and by what is
    raised inside the [try]: HTTP 400 for a request without text filter;
    else HTTP 500 when the acquire, the fetch or the lookup of the total
    raises an [Exception]; else, when one of the awaits raises a
    [BaseException] that is no [Exception], that exception leaves the
    function as it is and there is no [HTTPException]; else the
    response. *)
Theorem search_error_status (st : async_store) r :
  let out := snd (async_search_dependencies st r) in
  if has_text_filter r then
    match raised_in_try st r with
    | Some (AnException _) => exists err, out = Raises err /\ status_code err = 500%Z
    | Some (ABaseException name) => out = Propagates name
    | None => exists resp, out = Returns resp
    end
  else exists err, out = Raises err /\ status_code err = 400%Z.
Proof.
  cbv zeta. destruct (has_text_filter r) eqn:Ht.
  - rewrite (async_search_runs_query st r Ht), async_with_connection_raised.
    unfold raised_in_try.
    destruct (async_acquire_failure st) as [[[d m text|text]|name]|]; cbn; eauto.
    destruct (async_fetch st (query_template r) (params r))
      as [[[d m text|text]|name]|rows]; cbn; eauto.
    destruct (shape_result rows) as [[d m text|text]|resp]; cbn; eauto.
  - unfold async_search_dependencies, has_text_filter in *.
    apply orb_false_iff in Ht as [-> ->]. cbn. eauto.
Qed.

Lemma search_error_status_witness :
  snd (async_search_dependencies cancelled_store sample) = Propagates "CancelledError".
Proof. exact (search_error_status cancelled_store sample). Defined.

(** ** More on failures *)

(** X11: shaping the rows fails in one case only: there is a first row and
    it has no [total_collocations_count]; a later row without the field is
    no failure, since the field is popped with a default. *)
Theorem shape_result_fails_iff (rows : list (gmap string value)) :
  (exists e, shape_result rows = inl e) <->
  (exists first rest,
      rows = first :: rest /\ first !! "total_collocations_count" = None).
Proof.
  unfold shape_result, first_total. split.
  - intros [e He]. destruct rows as [|first rest]; [discriminate He|].
    exists first, rest. split; [reflexivity|].
    destruct (first !! "total_collocations_count"); [discriminate He|reflexivity].
  - intros (first & rest & -> & Hnone). rewrite Hnone. eauto.
Qed.

(** A later row without the field is shaped like the others. *)
Example shape_result_later_row_without_column :
  shape_result [ {[ "total_collocations_count" := VInt 2 ]};
                 {[ "head_text" := VStr "run" ]} ]
  = inr (Response (VInt 2) [ ∅; {[ "head_text" := VStr "run" ]} ]).
Proof. vm_compute. reflexivity. Qed.

(** X12: what a [PostgresError] raised by the query sends to the caller:
    its detail when that is a non-empty string, else its message, and the
    word [None] when the error has neither. *)
Theorem search_postgres_error_detail (st : store) r detail message text :
  has_text_filter r = true ->
  acquire_failure st = None ->
  fetch st (query_template r) (params r) = inl (PostgresError detail message text) ->
  snd (search_dependencies st r) =
  inl (HTTPException 500
         ("Database error: " +:+
          match detail, message with
          | Some (String c s), _ => String c s
          | _, Some m => m
          | _, None => "None"
          end)).
Proof.
  intros Ht Ha Hf.
  rewrite (search_runs_query st r Ht), (held_query st r Ha), Hf.
  destruct detail as [[|c s]|], message as [m|]; reflexivity.
Qed.

Lemma search_postgres_error_detail_witness :
  has_text_filter sample = true /\
  snd (search_dependencies
         (failing_store (PostgresError (Some "") None "connection lost")) sample)
  = inl (HTTPException 500 "Database error: None").
Proof.
  split; [reflexivity|].
  rewrite (search_postgres_error_detail
             (failing_store (PostgresError (Some "") None "connection lost"))
             sample (Some "") None "connection lost");
    reflexivity.
Defined.

Lemma params_bounds_witness :
  has_text_filter sample = true /\ 6 <= length (params sample).
Proof.
  split; [reflexivity|].
  destruct (params_bounds sample) as (_ & H & _). apply H. reflexivity.
Defined.

(** ** Startup and shutdown *)

(** X13: without a usable [DATABASE_URL] (unset or empty) startup raises
    before any pool is asked for: the value is printed, nothing is
    created or logged, and the state is as before. *)
Theorem startup_requires_database_url (h : host) state :
  truthy_str (environ h !! "DATABASE_URL") = false ->
  startup h state =
  ([Print ("Using database URL: " +:+ fmt_str (environ h !! "DATABASE_URL"))],
   state,
   inl (OtherException "DATABASE_URL environment variable not set")).
Proof. unfold startup. intros ->. reflexivity. Qed.

Lemma startup_requires_database_url_witness :
  truthy_str (environ unconfigured_host !! "DATABASE_URL") = false /\
  startup unconfigured_host None =
  ([Print "Using database URL: None"], None,
   inl (OtherException "DATABASE_URL environment variable not set")).
Proof.
  split; [reflexivity|].
  apply (startup_requires_database_url unconfigured_host None). reflexivity.
Defined.

(** X14: when the pool cannot be created startup logs the failure with
    the text of the exception, raises that same exception and leaves the
    state as before. *)
Theorem startup_pool_failure (h : host) state url e :
  environ h !! "DATABASE_URL" = Some url ->
  url <> EmptyString ->
  create_pool h url = inl e ->
  startup h state =
  ([Print ("Using database URL: " +:+ url);
    CreatePool url;
    LogLine ERROR ("Failed to create database connection pool: " +:+ exn_str e)],
   state, inl e).
Proof.
  intros Hurl Hne Hc. unfold startup. rewrite Hurl.
  destruct url as [|c s]; [congruence|]. cbn [truthy_str negb fmt_str].
  rewrite Hc. reflexivity.
Qed.

Lemma startup_pool_failure_witness :
  environ unreachable_host !! "DATABASE_URL" = Some "postgresql://db/collocations" /\
  snd (startup unreachable_host None) = inl (OtherException "connection refused") /\
  snd (fst (startup unreachable_host None)) = None.
Proof.
  split; [reflexivity|].
  rewrite (startup_pool_failure unreachable_host None
             "postgresql://db/collocations" (OtherException "connection refused"));
    [split; reflexivity|reflexivity|discriminate|reflexivity].
Defined.

(** X15: startup and shutdown fit together: after a startup that returned,
    the state holds the pool [create_pool] made for the configured URL and
    shutdown closes exactly that pool, logging once it is closed; after a
    startup that raised in a fresh process no pool is set and shutdown
    does nothing. *)
Theorem startup_then_shutdown (h : host) tr state res :
  startup h None = (tr, state, res) ->
  match res with
  | inr _ =>
      exists url p,
        environ h !! "DATABASE_URL" = Some url /\
        create_pool h url = inr p /\
        state = Some p /\
        fst (shutdown h state)
        = ClosePool p :: (if is_not_None (close_pool h p) then []
                          else [LogLine INFO "Database connection pool closed."])
  | inl _ => state = None /\ shutdown h state = ([], inr tt)
  end.
Proof.
  unfold startup.
  destruct (environ h !! "DATABASE_URL") as [[|c s]|] eqn:Hurl; cbn [truthy_str negb fmt_str].
  - intros [= <- <- <-]. split; reflexivity.
  - destruct (create_pool h (String c s)) as [e|p] eqn:Hc.
    + intros [= <- <- <-]. split; reflexivity.
    + intros [= <- <- <-]. exists (String c s), p.
      split; [reflexivity|]. split; [exact Hc|]. split; [reflexivity|].
      cbn [shutdown]. destruct (close_pool h p); reflexivity.
  - intros [= <- <- <-]. split; reflexivity.
Qed.

Lemma startup_then_shutdown_witness :
  startup sample_host None
  = ([Print "Using database URL: postgresql://db/collocations";
      CreatePool "postgresql://db/collocations"], Some 1, inr tt) /\
  exists url p,
    environ sample_host !! "DATABASE_URL" = Some url /\
    create_pool sample_host url = inr p /\
    Some 1 = Some p /\
    fst (shutdown sample_host (Some 1))
    = ClosePool p :: (if is_not_None (close_pool sample_host p) then []
                      else [LogLine INFO "Database connection pool closed."]).
Proof.
  assert (H : startup sample_host None
              = ([Print "Using database URL: postgresql://db/collocations";
                  CreatePool "postgresql://db/collocations"], Some 1, inr tt))
    by reflexivity.
  split; [exact H|].
  exact (startup_then_shutdown sample_host _ _ _ H).
Defined.
